(** * MoodM8 chat handler: a shallow embedding of [backend/main.py]

    The handler [chat] of the FastAPI application is embedded as a function
    in a small state-and-exception monad.  What the handler cannot compute
    by itself (the uuid generator, the clock, the Gemini client and the
    Firestore client) is an oracle of the environment; every use of the two
    network clients is recorded in a trace.

    A Python [str] is the [string] of its UTF-8 bytes.  Concatenation,
    emptiness, [in] and [join] of texts are those of their encodings.
    [s[:n]] and [s.strip()] work on characters: they are written here on
    the encoding, a character being a byte that is not a continuation byte
    together with the continuation bytes after it.  [s.lower()] depends on
    the case tables of the interpreter; it is a field of the environment,
    and what a theorem needs to know about it is a stated hypothesis. *)

From Stdlib Require Import Ascii NArith ZArith.
From stdpp Require Import base option list strings gmap.

Local Open Scope Z_scope.
Local Open Scope stdpp_scope.

(* ===================================================================== *)
(** ** Python string operations used by the handler *)
(* ===================================================================== *)

Module Str.

(** A continuation byte of UTF-8, [10xxxxxx]: it does not start a
    character. *)
Definition is_continuation (c : ascii) : bool :=
  let n := N_of_ascii c in ((128 <=? n) && (n <? 192))%N.

(** [len(s)]: the number of characters, that is of bytes that start one. *)
Fixpoint char_count (s : string) : nat :=
  match s with
  | EmptyString => O
  | String c s' => ((if is_continuation c then 0 else 1) + char_count s')%nat
  end.

(** [s.startswith(p)] *)
Fixpoint startswith (p s : string) : bool :=
  match p, s with
  | EmptyString, _ => true
  | String _ _, EmptyString => false
  | String a p', String b s' => bool_decide (a = b) && startswith p' s'
  end.

(** [k in s] for two strings: [k] occurs in [s] as a substring. *)
Fixpoint contains (k s : string) : bool :=
  startswith k s ||
  match s with
  | EmptyString => false
  | String _ s' => contains k s'
  end.

(** [sep.join(parts)] *)
Fixpoint join (sep : string) (parts : list string) : string :=
  match parts with
  | [] => EmptyString
  | [p] => p
  | p :: ps => p +:+ sep +:+ join sep ps
  end.

(** The UTF-8 encoding of a code point. *)
Definition utf8 (cp : N) : string :=
  (if cp <? 0x80 then
     String (ascii_of_N cp) EmptyString
   else if cp <? 0x800 then
     String (ascii_of_N (0xC0 + cp / 0x40))
       (String (ascii_of_N (0x80 + cp mod 0x40)) EmptyString)
   else if cp <? 0x10000 then
     String (ascii_of_N (0xE0 + cp / 0x1000))
       (String (ascii_of_N (0x80 + (cp / 0x40) mod 0x40))
          (String (ascii_of_N (0x80 + cp mod 0x40)) EmptyString))
   else
     String (ascii_of_N (0xF0 + cp / 0x40000))
       (String (ascii_of_N (0x80 + (cp / 0x1000) mod 0x40))
          (String (ascii_of_N (0x80 + (cp / 0x40) mod 0x40))
             (String (ascii_of_N (0x80 + cp mod 0x40)) EmptyString))))%N.

(** The code points for which [str.isspace] holds, which are the ones that
    [str.strip] removes. *)
Definition WHITESPACE : list N :=
  [ 0x09; 0x0A; 0x0B; 0x0C; 0x0D; 0x1C; 0x1D; 0x1E; 0x1F; 0x20;
    0x85; 0xA0; 0x1680;
    0x2000; 0x2001; 0x2002; 0x2003; 0x2004; 0x2005; 0x2006; 0x2007;
    0x2008; 0x2009; 0x200A;
    0x2028; 0x2029; 0x202F; 0x205F; 0x3000 ]%N.

(** [ch.isspace()] for one character [ch], given by its bytes. *)
Definition is_space (ch : string) : bool :=
  existsb (fun cp => String.eqb (utf8 cp) ch) WHITESPACE.

(** Drops from the front of [s] the characters that [sp] accepts.  The
    characters looked for have one, two or three bytes. *)
Fixpoint lstrip_by (sp : string -> bool) (s : string) : string :=
  match s with
  | EmptyString => EmptyString
  | String c1 s1 =>
      if sp (String c1 EmptyString) then lstrip_by sp s1
      else
        match s1 with
        | EmptyString => s
        | String c2 s2 =>
            if sp (String c1 (String c2 EmptyString)) then lstrip_by sp s2
            else
              match s2 with
              | EmptyString => s
              | String c3 s3 =>
                  if sp (String c1 (String c2 (String c3 EmptyString)))
                  then lstrip_by sp s3
                  else s
              end
        end
  end.

(** The bytes of [s] in reverse order. *)
Fixpoint rev_onto (s acc : string) : string :=
  match s with
  | EmptyString => acc
  | String c s' => rev_onto s' (String c acc)
  end.

Definition rev (s : string) : string := rev_onto s EmptyString.

(** [s.lstrip()] *)
Definition lstrip (s : string) : string := lstrip_by is_space s.

(** [s.rstrip()]: the same from the other end. *)
Definition rstrip (s : string) : string :=
  rev (lstrip_by (fun w => is_space (rev w)) (rev s)).

(** [s.strip()] *)
Definition strip (s : string) : string := rstrip (lstrip s).

(** [s[:n]]: the first [n] characters. *)
Fixpoint slice_to (n : nat) (s : string) : string :=
  match s with
  | EmptyString => EmptyString
  | String c s' =>
      if is_continuation c then String c (slice_to n s')
      else
        match n with
        | O => EmptyString
        | S n' => String c (slice_to n' s')
        end
  end.

(** Truth value of a string: [bool(s)]. *)
Definition truthy (s : string) : bool :=
  match s with EmptyString => false | String _ _ => true end.

End Str.

(** Truth value of an [Optional[str]]: [None] and the empty string are falsy. *)
Definition opt_truthy (o : option string) : bool :=
  match o with
  | None => false
  | Some s => Str.truthy s
  end.

(* ===================================================================== *)
(** ** Module-level constants *)
(* ===================================================================== *)

Definition RISK_KEYWORDS : list string :=
  [ "suicide"; "kill myself"; "want to die"; "end my life";
    "hurt myself"; "hurting myself"; "die by suicide" ].

Definition SYSTEM_PROMPT : string :=
  "You are MoodM8 — a short, empathetic, non-judgmental support assistant for young adults. " +:+
  "Keep replies concise (2-6 sentences), ask one gentle clarifying question, offer a 1-2 simple coping step, " +:+
  "and give safe resources if the user indicates crisis. Do NOT provide medical or legal advice. " +:+
  "If the user expresses intent to self-harm or immediate danger, respond with supportive, urgent-escalation language and provide emergency resource suggestions.".

(** The literal bound to [reply] in the crisis branch of [chat]. *)
Definition CRISIS_REPLY : string :=
  "I'm really sorry — it sounds like you're in serious distress. " +:+
  "If you're in India and in immediate danger, please call 112 now or the mental health helpline KIRAN: 1800-599-0019. " +:+
  "If you want, I can connect you with coping steps and nearby support options. You are not alone.".

(** [any(k in low for k in RISK_KEYWORDS)] with [low = text.lower()];
    [lower] is the [str.lower] of the interpreter. *)
Definition contains_risk (lower : string -> string) (text : string) : bool :=
  let low := lower text in
  existsb (fun k => Str.contains k low) RISK_KEYWORDS.

(* ===================================================================== *)
(** ** Data model *)
(* ===================================================================== *)

(** Values found in a history entry or in a stored document.  A value that
    is neither [None], a boolean nor a string is known by the text that
    [str()] gives for it. *)
Inductive PyVal : Type :=
| PyNone
| PyBool (b : bool)
| PyStr (s : string)
| PyObj (shown : string).

(** [str(v)], which is also what an f-string field [{v}] expands to. *)
Definition py_str (v : PyVal) : string :=
  match v with
  | PyNone => "None"
  | PyBool true => "True"
  | PyBool false => "False"
  | PyStr s => s
  | PyObj shown => shown
  end.

(** A Python [dict] with string keys. *)
Abbreviation Dict := (gmap string PyVal).

(** [m.get(key, default)] and [m.get(key)] *)
Definition dict_get (m : Dict) (key : string) (dflt : PyVal) : PyVal :=
  default dflt (m !! key).

Module ChatRequest.
Record t : Type := mk {
  session_id : option string;
  message : string;
  history : option (list Dict);
  save_opt_in_ciphertext : option string
}.
End ChatRequest.

Module ChatResponse.
Record t : Type := mk {
  session_id : string;
  reply : string;
  timestamp : string;
  saved : bool
}.
End ChatResponse.

(** An attribute of an object of the SDK: it may not exist at all. *)
Inductive attr (A : Type) : Type :=
| NoAttr
| Attr (v : A).
Arguments NoAttr {A}.
Arguments Attr {A} v.

(** [getattr(o, name, default)] *)
Definition getattr {A} (a : attr A) (dflt : A) : A :=
  match a with NoAttr => dflt | Attr v => v end.

(** [hasattr(o, name)] *)
Definition hasattr {A} (a : attr A) : bool :=
  match a with NoAttr => false | Attr _ => true end.

(** What [client.models.generate_content] returns, as far as the handler
    looks into it: [response.text], [response.candidates[i].content[j].text]
    and [str(response)].  A text is a string or [None]. *)
Module GenAI.
Record Segment : Type := { seg_text : option string }.
Record Candidate : Type := { content : list Segment }.
Record Response : Type := {
  text : attr (option string);
  candidates : attr (list Candidate);
  to_str : string
}.
End GenAI.

(** Exceptions, all of them subclasses of [Exception]. *)
Inductive Exn : Type :=
| HTTPException (status_code : Z) (detail : string)
| IndexError (msg : string)
| TypeError (msg : string)
| AttributeError (msg : string)
| ClientError (msg : string).

(** Outward effects of the handler, in the order in which they happen.
    A call of a network client is recorded with what came back: the
    exception it raised ([inl], [Some]) or its result ([inr], [None]). *)
Inductive Event : Type :=
| GenerateContent (model contents : string) (max_output_tokens : Z)
    (outcome : Exn + GenAI.Response)
| FirestoreSet (collection document : string) (doc : Dict)
    (failure : option Exn)
| Printed (label : string) (e : Exn).

(** The process environment.  [save_enabled] is computed once at import
    time from FIRESTORE_PROJECT.  [str_lower] is the [str.lower] of the
    interpreter, on texts given by their UTF-8 bytes.  The other fields
    are the answers of the outside world; they are indexed by a logical
    clock so that two consultations need not agree. *)
Record Env : Type := {
  save_enabled : bool;
  str_lower : string -> string;
  uuid4 : nat -> string;
  utcnow_isoformat : nat -> string;
  generate_content : nat -> string -> string -> Z -> Exn + GenAI.Response;
  firestore_set : nat -> string -> string -> Dict -> option Exn
}.

(** The mutable world: the logical clock, the Firestore documents by
    collection and document id, and the trace of events so far. *)
Record State : Type := {
  tick : nat;
  db : gmap (string * string) Dict;
  trace : list Event
}.

(* ===================================================================== *)
(** ** State and exception monad *)
(* ===================================================================== *)

Inductive Res (A : Type) : Type :=
| Ok (a : A)
| Raised (e : Exn).
Arguments Ok {A} a.
Arguments Raised {A} e.

Definition M (A : Type) : Type := State -> Res A * State.

#[global] Instance M_ret : MRet M := fun A a st => (Ok a, st).

#[global] Instance M_bind : MBind M := fun A B f m st =>
  match m st with
  | (Ok a, st') => f a st'
  | (Raised e, st') => (Raised e, st')
  end.

(** [raise e] *)
Definition raise {A} (e : Exn) : M A := fun st => (Raised e, st).

(** A computation that does not touch the world. *)
Definition lift {A} (r : Res A) : M A := fun st => (r, st).

(** [try: body  except Exception as e: handler(e)] *)
Definition try_except {A} (body : M A) (handler : Exn -> M A) : M A :=
  fun st =>
    match body st with
    | (Ok a, st') => (Ok a, st')
    | (Raised e, st') => handler e st'
    end.

Definition emit (ev : Event) : M unit := fun st =>
  (Ok tt, {| tick := tick st; db := db st; trace := trace st ++ [ev] |}).

(** Reads the logical clock and advances it. *)
Definition next_tick : M nat := fun st =>
  (Ok (tick st), {| tick := S (tick st); db := db st; trace := trace st |}).

Definition db_put (collection document : string) (doc : Dict) : M unit := fun st =>
  (Ok tt, {| tick := tick st;
             db := <[(collection, document) := doc]> (db st);
             trace := trace st |}).

(** [print(label, e)] *)
Definition print (label : string) (e : Exn) : M unit := emit (Printed label e).

(** [response.candidates[0].content[0].text] *)
Definition first_segment_text (cands : list GenAI.Candidate) : Res (option string) :=
  match cands with
  | [] => Raised (IndexError "list index out of range")
  | c :: _ =>
      match GenAI.content c with
      | [] => Raised (IndexError "list index out of range")
      | seg :: _ => Ok (GenAI.seg_text seg)
      end
  end.

(** [getattr(response, "text", None) or
     (response.candidates[0].content[0].text
      if hasattr(response, "candidates") else str(response))] *)
Definition extract_reply_text (response : GenAI.Response) : Res (option string) :=
  let direct := getattr (GenAI.text response) None in
  if opt_truthy direct then Ok direct
  else
    if hasattr (GenAI.candidates response)
    then first_segment_text (getattr (GenAI.candidates response) [])
    else Ok (Some (GenAI.to_str response)).

(** [reply_text[:200]] *)
Definition slice_200 (reply_text : option string) : Res string :=
  match reply_text with
  | Some s => Ok (Str.slice_to 200 s)
  | None => Raised (TypeError "'NoneType' object is not subscriptable")
  end.

(** [reply_text.strip()] *)
Definition strip_text (reply_text : option string) : Res string :=
  match reply_text with
  | Some s => Ok (Str.strip s)
  | None => Raised (AttributeError "'NoneType' object has no attribute 'strip'")
  end.

(** [f"{m.get('role','user')}: {m.get('text')}"] *)
Definition render_entry (m : Dict) : string :=
  py_str (dict_get m "role" (PyStr "user")) +:+ ": " +:+
  py_str (dict_get m "text" PyNone).

(** The list [parts] at the moment the prompt is joined. *)
Definition prompt_parts (req : ChatRequest.t) : list string :=
  let parts := [SYSTEM_PROMPT] in
  let parts :=
    match ChatRequest.history req with
    | Some (m :: ms) => parts ++ map render_entry (m :: ms)
    | _ => parts
    end in
  parts ++ ["user: " +:+ ChatRequest.message req].

(** Two newline characters, the separator of the prompt. *)
Definition blank_line : string := String "010" (String "010" EmptyString).

(** [prompt = sep.join(parts)] where [sep] is [blank_line]. *)
Definition build_prompt (req : ChatRequest.t) : string :=
  Str.join blank_line (prompt_parts req).

Section Handler.

Variable env : Env.

(** [str(uuid.uuid4())] *)
Definition uuid4_str : M string :=
  n ← next_tick; mret (uuid4 env n).

(** [datetime.datetime.utcnow().isoformat()] *)
Definition utcnow : M string :=
  n ← next_tick; mret (utcnow_isoformat env n).

(** [client.models.generate_content(model=..., contents=..., max_output_tokens=...)] *)
Definition models_generate_content
    (model contents : string) (max_output_tokens : Z) : M GenAI.Response :=
  n ← next_tick;
  let outcome := generate_content env n model contents max_output_tokens in
  emit (GenerateContent model contents max_output_tokens outcome);;
  match outcome with
  | inl e => raise e
  | inr response => mret response
  end.

(** [db.collection(collection).document(document).set(doc)] *)
Definition document_set (collection document : string) (doc : Dict) : M unit :=
  n ← next_tick;
  let failure := firestore_set env n collection document doc in
  emit (FirestoreSet collection document doc failure);;
  match failure with
  | Some e => raise e
  | None => db_put collection document doc
  end.

(** The handler of [POST /chat]. *)
Definition chat (req : ChatRequest.t) : M ChatResponse.t :=
  session_id ←
    (if opt_truthy (ChatRequest.session_id req)
     then mret (default EmptyString (ChatRequest.session_id req))
     else uuid4_str);
  iso ← utcnow;
  let now := iso +:+ "Z" in
  if contains_risk (str_lower env) (ChatRequest.message req) then
    let reply := CRISIS_REPLY in
    saved ←
      (if opt_truthy (ChatRequest.save_opt_in_ciphertext req) && save_enabled env
       then
         try_except
           (let doc : Dict :=
              <["session_id" := PyStr session_id]>
              (<["ciphertext" := PyStr (default EmptyString (ChatRequest.save_opt_in_ciphertext req))]>
              (<["created_at" := PyStr now]>
              (<["opt_in" := PyBool true]> ∅))) in
            document_set "saved_sessions" session_id doc;;
            mret true)
           (fun e => print "Firestore save failed:" e;; mret false)
       else mret false);
    mret (ChatResponse.mk session_id reply now saved)
  else
    let prompt := build_prompt req in
    reply_text ←
      try_except
        (response ← models_generate_content "gemini-2.5-flash" prompt 400;
         lift (extract_reply_text response))
        (fun e => print "GenAI call failed:" e;;
                  raise (HTTPException 500 "AI generation failed"));
    saved ←
      (if opt_truthy (ChatRequest.save_opt_in_ciphertext req) && save_enabled env
       then
         try_except
           (snippet ← lift (slice_200 reply_text);
            let doc : Dict :=
              <["session_id" := PyStr session_id]>
              (<["ciphertext" := PyStr (default EmptyString (ChatRequest.save_opt_in_ciphertext req))]>
              (<["created_at" := PyStr now]>
              (<["opt_in" := PyBool true]>
              (<["snippet" := PyStr snippet]> ∅)))) in
            document_set "saved_sessions" session_id doc;;
            mret true)
           (fun e => print "Firestore save failed:" e;; mret false)
       else mret false);
    reply ← lift (strip_text reply_text);
    mret (ChatResponse.mk session_id reply now saved).

End Handler.

(* ===================================================================== *)
(** ** Vocabulary of the specification *)
(* ===================================================================== *)

(** ASCII text, in which the theorems speak of letter case and of
    one-byte characters.  None of this is an operation of the handler. *)
Module AsciiText.

(** A byte below 128: an ASCII character. *)
Definition is_ascii (c : ascii) : bool := (N_of_ascii c <? 128)%N.

(** Lower-casing of the ASCII letters, every other byte kept: what
    [str.lower] does to ASCII text. *)
Definition lower_char (c : ascii) : ascii :=
  let n := N_of_ascii c in
  if ((65 <=? n) && (n <=? 90))%N then ascii_of_N (n + 32) else c.

Fixpoint lower (s : string) : string :=
  match s with
  | EmptyString => EmptyString
  | String c s' => String (lower_char c) (lower s')
  end.

(** Every byte is an ASCII character. *)
Fixpoint all_ascii (s : string) : bool :=
  match s with
  | EmptyString => true
  | String c s' => is_ascii c && all_ascii s'
  end.

(** The number of ASCII characters. *)
Fixpoint count (s : string) : nat :=
  match s with
  | EmptyString => O
  | String c s' => ((if is_ascii c then 1 else 0) + count s')%nat
  end.

(** The one-byte whitespace characters: codes 9 to 13 and 28 to 32. *)
Definition is_space (c : ascii) : bool :=
  let n := N_of_ascii c in
  ((9 <=? n) && (n <=? 13) || (28 <=? n) && (n <=? 32))%N.

End AsciiText.

(** [k] occurs in [s] as a substring. *)
Definition occurs_in (k s : string) : Prop :=
  ∃ pre post, s = pre +:+ k +:+ post.

(** [k] occurs in [s] as a substring when the case of the ASCII letters is
    ignored: some substring [mid] of [s] differs from [k] by the case of
    ASCII letters only. *)
Definition ci_occurs_in (k s : string) : Prop :=
  ∃ pre mid post,
    s = pre +:+ mid +:+ post ∧ AsciiText.lower mid = AsciiText.lower k.

(** The message contains some risk keyword, the case of ASCII letters
    ignored. *)
Definition risk_flagged (msg : string) : Prop :=
  ∃ k, k ∈ RISK_KEYWORDS ∧ ci_occurs_in k msg.

(** The message contains some risk keyword once it is lower-cased by
    [lower]: the scan as the specification describes it. *)
Definition flagged (lower : string → string) (msg : string) : Prop :=
  ∃ k, k ∈ RISK_KEYWORDS ∧ occurs_in k (lower msg).

(** What the theorems use of [str.lower] when they speak of ASCII letters.
    An ASCII stretch of a text is lower-cased in place, letter by letter,
    whatever stands around it; and lower-casing gives at most one ASCII
    character per character of the text.  (Of the characters that are not
    ASCII, CPython lower-cases two to a text with an ASCII character: the
    Kelvin sign to k, and the capital I with dot to i and a combining
    dot.) *)
Record PythonLower (lower : string → string) : Prop := {
  lower_keeps_ascii : ∀ pre mid post,
    AsciiText.all_ascii mid = true →
    ∃ pre' post', lower (pre +:+ mid +:+ post) = pre' +:+ AsciiText.lower mid +:+ post';
  lower_ascii_count : ∀ s,
    (AsciiText.count (lower s) ≤ Str.char_count s)%nat
}.

Definition is_model_call (ev : Event) : bool :=
  match ev with GenerateContent _ _ _ _ => true | _ => false end.

Definition is_write (ev : Event) : bool :=
  match ev with FirestoreSet _ _ _ _ => true | _ => false end.

(** The result of a run and the events it added to the trace. *)
Definition result {A} (run : Res A * State) : Res A := fst run.
Definition final {A} (run : Res A * State) : State := snd run.
Definition events {A} (st : State) (run : Res A * State) : list Event :=
  drop (length (trace st)) (trace (final run)).

(** The optional string was supplied and is not empty. *)
Definition supplied (o : option string) (s : string) : Prop :=
  o = Some s ∧ s ≠ EmptyString.

(** The error that the handler reports for a failed generation. *)
Definition AI_GENERATION_FAILED : Exn :=
  HTTPException 500 "AI generation failed".

(** The role label and the text of a history entry as the specification
    words them: the role is "user" when absent, the text is "None" when
    absent. *)
Definition entry_role (m : Dict) : string :=
  match m !! "role" with
  | Some v => py_str v
  | None => "user"
  end.

Definition entry_text (m : Dict) : string :=
  match m !! "text" with
  | Some v => py_str v
  | None => "None"
  end.

(** A blank line between two parts: two line feeds (code 10). *)
Definition spec_separator : string :=
  String (ascii_of_nat 10) (String (ascii_of_nat 10) EmptyString).

(** The history entries as the specification words them, each preceded by
    a blank line, in their order. *)
Fixpoint spec_entries (entries : list Dict) : string :=
  match entries with
  | [] => EmptyString
  | m :: rest =>
      spec_separator +:+ entry_role m +:+ ": " +:+ entry_text m +:+ spec_entries rest
  end.

(** The prompt as the specification words it: the system instruction, then
    every history entry, then the new message, separated by blank lines. *)
Definition spec_prompt (req : ChatRequest.t) : string :=
  SYSTEM_PROMPT +:+
  spec_entries (default [] (ChatRequest.history req)) +:+
  spec_separator +:+ "user: " +:+ ChatRequest.message req.

(** The text is empty or starts with the first byte of a character. *)
Definition starts_character (s : string) : Prop :=
  match s with
  | EmptyString => True
  | String c _ => Str.is_continuation c = false
  end.

(** [snippet] is the first [n] characters of [text], all of it when [text]
    has fewer: it is a prefix of [text] that ends where a character ends
    and has that many characters. *)
Definition first_chars (n : nat) (text snippet : string) : Prop :=
  (∃ rest, text = snippet +:+ rest ∧ starts_character rest) ∧
  Str.char_count snippet = Nat.min n (Str.char_count text).

(** The response has no usable direct text: the attribute is missing, is
    [None] or is the empty string. *)
Definition no_direct_text (resp : GenAI.Response) : Prop :=
  GenAI.text resp = NoAttr ∨ GenAI.text resp = Attr None ∨
  GenAI.text resp = Attr (Some EmptyString).

(** The response has a candidates attribute without a first content
    segment of a first candidate. *)
Definition no_first_segment (resp : GenAI.Response) : Prop :=
  GenAI.candidates resp = Attr [] ∨
  ∃ c cs, GenAI.candidates resp = Attr (c :: cs) ∧ GenAI.content c = [].



(* ===================================================================== *)
(** ** Sample environments and requests *)
(* ===================================================================== *)

Definition st0 : State := {| tick := 0; db := ∅; trace := [] |}.

(** A response that carries its text in the direct field. *)
Definition text_response (t : string) : GenAI.Response :=
  {| GenAI.text := Attr (Some t);
     GenAI.candidates := NoAttr;
     GenAI.to_str := "<response>" |}.

(** A stream of identifiers that never repeats. *)
Fixpoint sample_uuid (n : nat) : string :=
  match n with
  | O => "-0000"
  | S n' => String "a" (sample_uuid n')
  end.

(** An interpreter that knows the Kelvin sign (bytes 226 132 170) besides
    the ASCII letters. *)
Fixpoint kelvin_lower (s : string) : string :=
  match s with
  | EmptyString => EmptyString
  | String c1 s1 =>
      match s1 with
      | String c2 (String c3 s3) =>
          if bool_decide (c1 = ascii_of_nat 226 ∧ c2 = ascii_of_nat 132 ∧
                          c3 = ascii_of_nat 170)
          then String "k" (kelvin_lower s3)
          else String (AsciiText.lower_char c1) (kelvin_lower s1)
      | _ => String (AsciiText.lower_char c1) (kelvin_lower s1)
      end
  end.

Definition sample_env (enabled : bool)
    (model : Exn + GenAI.Response) (write : option Exn) : Env :=
  {| save_enabled := enabled;
     str_lower := AsciiText.lower;
     uuid4 := sample_uuid;
     utcnow_isoformat := λ _, "2025-01-01T12:00:00";
     generate_content := λ _ _ _ _, model;
     firestore_set := λ _ _ _ _, write |}.

Definition rough_day : ChatRequest.t :=
  ChatRequest.mk None "I had a rough day"
    (Some [ {[ "role" := PyStr "user"; "text" := PyStr "hi" ]} ]) None.

Definition rough_day_saved : ChatRequest.t :=
  ChatRequest.mk (Some "s-1") "I had a rough day"
    (Some [ {[ "role" := PyStr "model" ]} ]) (Some "c1ph3r").


Definition end_my_life_saved : ChatRequest.t :=
  ChatRequest.mk (Some "s-2") "I want to END my life" None (Some "c1ph3r").

Definition tough_reply : GenAI.Response :=
  text_response "  That sounds tough, want to talk about it? ".

(** The record that [rough_day_saved] leaves in the store. *)
Definition rough_day_record : Dict :=
  {[ "session_id" := PyStr "s-1";
     "ciphertext" := PyStr "c1ph3r";
     "created_at" := PyStr "2025-01-01T12:00:00Z";
     "opt_in" := PyBool true;
     "snippet" := PyStr "  That sounds tough, want to talk about it? " ]}.

(** A history entry with no field at all. *)
Definition bare_entry : Dict := ∅.

Definition hello_again : ChatRequest.t :=
  ChatRequest.mk None "hello again" (Some [bare_entry]) None.

(** The sample environment with an interpreter that knows the Kelvin
    sign. *)
Definition kelvin_env : Env :=
  {| save_enabled := true;
     str_lower := kelvin_lower;
     uuid4 := sample_uuid;
     utcnow_isoformat := λ _, "2025-01-01T12:00:00";
     generate_content := λ _ _ _ _, inr tough_reply;
     firestore_set := λ _ _ _ _, None |}.

(** "KILL MYSELF" written with the Kelvin sign. *)
Definition kelvin_message : string := Str.utf8 0x212A +:+ "ILL MYSELF".


(** No direct text; the reply is in the first segment of the first
    candidate. *)
Definition candidate_response : GenAI.Response :=
  {| GenAI.text := Attr None;
     GenAI.candidates :=
       Attr [ {| GenAI.content := [ {| GenAI.seg_text := Some " from a candidate " |} ] |} ];
     GenAI.to_str := "<response>" |}.

(** A reply between a no-break space (U+00A0) and an ideographic space
    (U+3000), with an e acute and a euro sign in it. *)
Definition unicode_reply : GenAI.Response :=
  text_response (Str.utf8 0xA0 +:+ "caf" +:+ Str.utf8 0xE9 +:+ " 5" +:+
                 Str.utf8 0x20AC +:+ Str.utf8 0x3000).

(** The direct text is present and empty; there are no candidates. *)
Definition empty_text_response : GenAI.Response :=
  {| GenAI.text := Attr (Some EmptyString);
     GenAI.candidates := NoAttr;
     GenAI.to_str := "<response>" |}.

(** No direct text and an empty list of candidates. *)
Definition no_candidate_response : GenAI.Response :=
  {| GenAI.text := Attr None;
     GenAI.candidates := Attr [];
     GenAI.to_str := "<response>" |}.

(* ===================================================================== *)
(** ** Start-up of the module *)
(* ===================================================================== *)

(** The statements that run when [backend/main.py] is imported: the API key
    is read and required, the Gemini client is configured with it,
    FIRESTORE_PROJECT is read and the Firestore client is created when it
    is set.  The constructors of the two clients are taken to return. *)
Module Startup.

Inductive Error : Type :=
| RuntimeError (msg : string).

(** The module globals after a successful import.  [api_key] is the key
    handed to [genai.configure]; [db] is the project of the Firestore
    client, [None] when the name [db] was never bound. *)
Record Globals : Type := {
  GENAI_KEY : string;
  api_key : string;
  FIRESTORE_PROJECT : option string;
  save_enabled : bool;
  db : option string
}.

(** [os.getenv(name)] *)
Definition getenv (environ : gmap string string) (name : string) : option string :=
  environ !! name.

Definition import_main (environ : gmap string string) : Error + Globals :=
  let GENAI_KEY := getenv environ "GENAI_API_KEY" in
  if negb (opt_truthy GENAI_KEY) then
    inl (RuntimeError
           "Set GENAI_API_KEY environment variable (Gemini API Key from Google AI Studio).")
  else
    let key := default EmptyString GENAI_KEY in
    let FIRESTORE_PROJECT := getenv environ "FIRESTORE_PROJECT" in
    let save_enabled := opt_truthy FIRESTORE_PROJECT in
    let db := if save_enabled then FIRESTORE_PROJECT else None in
    inr {| GENAI_KEY := key;
           api_key := key;
           FIRESTORE_PROJECT := FIRESTORE_PROJECT;
           save_enabled := save_enabled;
           db := db |}.

End Startup.

(** The handler runs in a process whose import left the globals [g]. *)
Definition started_with (g : Startup.Globals) (env : Env) : Prop :=
  save_enabled env = Startup.save_enabled g.

(* ===================================================================== *)
(** ** Further vocabulary *)
(* ===================================================================== *)

Definition is_client_call (ev : Event) : bool :=
  is_model_call ev || is_write ev.

(** The calls of the two network clients among the events, in order. *)
Definition client_calls (evs : list Event) : list Event :=
  List.filter is_client_call evs.

(** The risk keywords without "die by suicide". *)
Definition SHORT_KEYWORDS : list string :=
  [ "suicide"; "kill myself"; "want to die"; "end my life";
    "hurt myself"; "hurting myself" ].

(** One history entry standing for [m1] followed by [m2]: the entry [m1]
    whose text goes on with a blank line and the rendering of [m2]. *)
Definition merged_entry (m1 m2 : Dict) : Dict :=
  <["text" := PyStr (entry_text m1 +:+ blank_line +:+
                     entry_role m2 +:+ ": " +:+ entry_text m2)]> m1.

(** The request with another history. *)
Definition with_history (req : ChatRequest.t) (h : option (list Dict)) : ChatRequest.t :=
  ChatRequest.mk (ChatRequest.session_id req) (ChatRequest.message req) h
    (ChatRequest.save_opt_in_ciphertext req).

(** The session id that line 57 binds: the supplied one when it is not
    empty, the next identifier of the generator otherwise. *)
Definition resolved_session_id (env : Env) (req : ChatRequest.t) (st : State) : string :=
  if opt_truthy (ChatRequest.session_id req)
  then default EmptyString (ChatRequest.session_id req)
  else uuid4 env (tick st).

(** The rest of [s] after a first character that [sp] accepts, when [s]
    starts with one (of one, two or three bytes). *)
Definition prefix_by (sp : string → bool) (s : string) : option string :=
  match s with
  | EmptyString => None
  | String c1 s1 =>
      if sp (String c1 EmptyString) then Some s1
      else
        match s1 with
        | EmptyString => None
        | String c2 s2 =>
            if sp (String c1 (String c2 EmptyString)) then Some s2
            else
              match s2 with
              | EmptyString => None
              | String c3 s3 =>
                  if sp (String c1 (String c2 (String c3 EmptyString)))
                  then Some s3
                  else None
              end
        end
  end.

(** Every character of the text, read from the left, is one that [sp]
    accepts (so also for the empty text). *)
Fixpoint all_by (sp : string → bool) (s : string) : bool :=
  match s with
  | EmptyString => true
  | String c1 s1 =>
      if sp (String c1 EmptyString) then all_by sp s1
      else
        match s1 with
        | EmptyString => false
        | String c2 s2 =>
            if sp (String c1 (String c2 EmptyString)) then all_by sp s2
            else
              match s2 with
              | EmptyString => false
              | String c3 s3 =>
                  if sp (String c1 (String c2 (String c3 EmptyString)))
                  then all_by sp s3
                  else false
              end
        end
  end.

(** Every character of the text is whitespace. *)
Definition all_space (s : string) : bool := all_by Str.is_space s.

(** The four fields of every record, and the fifth of the model branch. *)
Definition BASE_FIELDS : gset string :=
  {[ "session_id"; "ciphertext"; "created_at"; "opt_in" ]}.

Definition SNIPPET_FIELDS : gset string := BASE_FIELDS ∪ {[ "snippet" ]}.

(** More sample data. *)
Definition environ_without_store : gmap string string :=
  {[ "GENAI_API_KEY" := "k-123" ]}.

Definition environ_with_store : gmap string string :=
  {[ "GENAI_API_KEY" := "k-123"; "FIRESTORE_PROJECT" := "moodm8" ]}.

(** A response whose first content segment has no text. *)
Definition none_segment_response : GenAI.Response :=
  {| GenAI.text := NoAttr;
     GenAI.candidates := Attr [ {| GenAI.content := [ {| GenAI.seg_text := None |} ] |} ];
     GenAI.to_str := "<response>" |}.

Definition entry_hi : Dict := {[ "role" := PyStr "user"; "text" := PyStr "hi" ]}.
Definition entry_hello : Dict := {[ "role" := PyStr "model"; "text" := PyStr "hello" ]}.

(* ===================================================================== *)
(** ** Strings *)
(* ===================================================================== *)

Section StringFacts.

Lemma str_app_nil_l (s : string) : EmptyString +:+ s = s.
Proof. reflexivity. Qed.

Lemma str_app_cons (c : ascii) (s t : string) :
  String c s +:+ t = String c (s +:+ t).
Proof. reflexivity. Qed.

Lemma str_app_nil_r (s : string) : s +:+ EmptyString = s.
Proof. induction s as [|c s IH]; [done|]. by rewrite str_app_cons, IH. Qed.

Lemma str_app_assoc (a b c : string) : (a +:+ b) +:+ c = a +:+ b +:+ c.
Proof. induction a as [|x a IH]; [done|]. by rewrite !str_app_cons, IH. Qed.

Lemma startswith_spec (p s : string) :
  Str.startswith p s = true ↔ ∃ post, s = p +:+ post.
Proof.
  revert s. induction p as [|a p IH]; intros s; simpl.
  - split; [intros _; by exists s | done].
  - destruct s as [|b s].
    + split; [done | intros [post H]; by rewrite str_app_cons in H].
    + rewrite andb_true_iff, bool_decide_eq_true, IH. split.
      * intros [-> [post ->]]. by exists post.
      * intros [post H]. rewrite str_app_cons in H. injection H as -> ->. eauto.
Qed.

Lemma contains_spec (k s : string) :
  Str.contains k s = true ↔ occurs_in k s.
Proof.
  unfold occurs_in. induction s as [|c s IH]; simpl.
  - rewrite orb_false_r, startswith_spec. split.
    + intros [post H]. by exists EmptyString, post.
    + intros [[|x pre] [post H]]; [by exists post|]. by rewrite str_app_cons in H.
  - rewrite orb_true_iff, startswith_spec, IH. split.
    + intros [[post H] | (pre & post & H)].
      * by exists EmptyString, post.
      * exists (String c pre), post. by rewrite str_app_cons, H.
    + intros [[|x pre] [post H]].
      * left. by exists post.
      * right. rewrite str_app_cons in H. injection H as -> ->. eauto.
Qed.

Lemma lower_app (a b : string) :
  AsciiText.lower (a +:+ b) = AsciiText.lower a +:+ AsciiText.lower b.
Proof. induction a as [|c a IH]; [done|]. simpl. by rewrite !str_app_cons, IH. Qed.

Lemma lower_char_idem (c : ascii) :
  AsciiText.lower_char (AsciiText.lower_char c) = AsciiText.lower_char c.
Proof. by destruct c as [[] [] [] [] [] [] [] []]. Qed.

Lemma lower_idem (s : string) :
  AsciiText.lower (AsciiText.lower s) = AsciiText.lower s.
Proof. induction s as [|c s IH]; [done|]. simpl. by rewrite lower_char_idem, IH. Qed.

(** A split of the lower-cased text comes from a split of the text. *)
Lemma lower_split (s a b : string) :
  AsciiText.lower s = a +:+ b →
  ∃ s1 s2, s = s1 +:+ s2 ∧ AsciiText.lower s1 = a ∧ AsciiText.lower s2 = b.
Proof.
  revert s. induction a as [|x a IH]; intros s H.
  - by exists EmptyString, s.
  - destruct s as [|c s]; [done|]. simpl in H. rewrite str_app_cons in H.
    injection H as Hc Hs. destruct (IH _ Hs) as (s1 & s2 & -> & H1 & H2).
    exists (String c s1), s2. simpl. by rewrite Hc, H1.
Qed.

Lemma keywords_lower : Forall (λ k, AsciiText.lower k = k) RISK_KEYWORDS.
Proof. repeat constructor. Qed.

Lemma keywords_ascii : Forall (λ k, AsciiText.all_ascii k = true) RISK_KEYWORDS.
Proof. repeat constructor. Qed.

(** The scan of the code decides [flagged]. *)
Lemma contains_risk_flagged (lower : string → string) (msg : string) :
  contains_risk lower msg = true ↔ flagged lower msg.
Proof.
  unfold contains_risk, flagged. rewrite existsb_exists. split.
  - intros (k & Hk%list_elem_of_In & Hc%contains_spec). eauto.
  - intros (k & Hk%list_elem_of_In & Hc%contains_spec). eauto.
Qed.

Lemma contains_risk_not_flagged (lower : string → string) (msg : string) :
  contains_risk lower msg = false ↔ ¬ flagged lower msg.
Proof.
  rewrite <- contains_risk_flagged. by destruct (contains_risk lower msg).
Qed.

(** With ASCII lower-casing the scan decides [risk_flagged]. *)
Lemma contains_risk_iff (msg : string) :
  contains_risk AsciiText.lower msg = true ↔ risk_flagged msg.
Proof.
  rewrite contains_risk_flagged. unfold flagged, risk_flagged. split.
  - intros (k & Hk & pre' & post' & H). exists k. split; [done|].
    apply lower_split in H as (pre & rest & -> & _ & H).
    apply lower_split in H as (mid & post & -> & Hmid & _).
    exists pre, mid, post. split; [done|].
    pose proof keywords_lower as HF. rewrite Forall_forall in HF.
    by rewrite (HF k Hk).
  - intros (k & Hk & pre & mid & post & -> & Hmid). exists k. split; [done|].
    pose proof keywords_lower as HF. rewrite Forall_forall in HF.
    exists (AsciiText.lower pre), (AsciiText.lower post).
    by rewrite !lower_app, Hmid, (HF k Hk).
Qed.

Lemma ascii_lower_char_is_ascii (c : ascii) :
  AsciiText.is_ascii (AsciiText.lower_char c) = AsciiText.is_ascii c.
Proof. by destruct c as [[] [] [] [] [] [] [] []]. Qed.

Lemma ascii_not_continuation (c : ascii) :
  AsciiText.is_ascii c = true → Str.is_continuation c = false.
Proof. by destruct c as [[] [] [] [] [] [] [] []]. Qed.

Lemma ascii_lower_all_ascii (s : string) :
  AsciiText.all_ascii (AsciiText.lower s) = AsciiText.all_ascii s.
Proof.
  induction s as [|c s IH]; [done|]. simpl.
  by rewrite ascii_lower_char_is_ascii, IH.
Qed.

(** Under the facts on [str.lower], a keyword that occurs up to the case
    of ASCII letters is found by the scan. *)
Lemma risk_flagged_flagged (lower : string → string) (msg : string) :
  PythonLower lower → risk_flagged msg → flagged lower msg.
Proof.
  intros Hlow (k & Hk & pre & mid & post & -> & Hmid). exists k. split; [done|].
  pose proof keywords_lower as HF. rewrite Forall_forall in HF.
  pose proof keywords_ascii as HA. rewrite Forall_forall in HA.
  rewrite (HF k Hk) in Hmid.
  assert (AsciiText.all_ascii mid = true) as Hascii.
  { rewrite <- ascii_lower_all_ascii, Hmid. by apply HA. }
  destruct (lower_keeps_ascii lower Hlow pre mid post Hascii) as (pre' & post' & ->).
  exists pre', post'. by rewrite Hmid.
Qed.

Lemma ascii_count_le_char_count (s : string) :
  (AsciiText.count s ≤ Str.char_count s)%nat.
Proof.
  induction s as [|c s IH]; [done|]. simpl.
  destruct (AsciiText.is_ascii c) eqn:Hc; [rewrite (ascii_not_continuation c Hc); lia|].
  destruct (Str.is_continuation c); lia.
Qed.

Lemma ascii_lower_ascii_count (s : string) :
  AsciiText.count (AsciiText.lower s) = AsciiText.count s.
Proof.
  induction s as [|c s IH]; [done|]. simpl.
  by rewrite ascii_lower_char_is_ascii, IH.
Qed.

(** ASCII lower-casing has the two properties. *)
Lemma ascii_lower_python : PythonLower AsciiText.lower.
Proof.
  split.
  - intros pre mid post _. exists (AsciiText.lower pre), (AsciiText.lower post).
    by rewrite !lower_app.
  - intros s. rewrite ascii_lower_ascii_count. apply ascii_count_le_char_count.
Qed.

Lemma slice_to_prefix (n : nat) (s : string) :
  ∃ rest, s = Str.slice_to n s +:+ rest ∧ starts_character rest.
Proof.
  revert n. induction s as [|c s IH]; intros n; [by exists EmptyString|].
  simpl. destruct (Str.is_continuation c) eqn:Hc.
  - destruct (IH n) as (rest & H & Hr). exists rest. split; [|done].
    by rewrite str_app_cons, <- H.
  - destruct n as [|n]; [by exists (String c s)|].
    destruct (IH n) as (rest & H & Hr). exists rest. split; [|done].
    by rewrite str_app_cons, <- H.
Qed.

Lemma slice_to_count (n : nat) (s : string) :
  Str.char_count (Str.slice_to n s) = Nat.min n (Str.char_count s).
Proof.
  revert n. induction s as [|c s IH]; intros n; simpl; [lia|].
  destruct (Str.is_continuation c) eqn:Hc; simpl; rewrite ?Hc.
  - by rewrite IH.
  - destruct n as [|n]; [done|]. simpl. by rewrite Hc, IH.
Qed.

End StringFacts.

(* ===================================================================== *)
(** ** Stripping *)
(* ===================================================================== *)

Section Stripping.

Lemma string_length_ind (P : string → Prop) :
  (∀ s, (∀ t, (String.length t < String.length s)%nat → P t) → P s) →
  ∀ s, P s.
Proof.
  intros Hstep s. remember (String.length s) as n eqn:Hn. revert s Hn.
  induction n as [n IH] using lt_wf_ind. intros s ->.
  apply Hstep. intros t Ht. by apply (IH (String.length t)).
Qed.

Lemma str_length_app (a b : string) :
  String.length (a +:+ b) = (String.length a + String.length b)%nat.
Proof. induction a as [|c a IH]; [done|]. rewrite str_app_cons. simpl. by rewrite IH. Qed.

Lemma rev_onto_app (s acc : string) : Str.rev_onto s acc = Str.rev s +:+ acc.
Proof.
  unfold Str.rev. revert acc. induction s as [|c s IH]; intros acc; [done|].
  simpl. rewrite (IH (String c acc)), (IH (String c EmptyString)).
  by rewrite str_app_assoc.
Qed.

Lemma rev_cons (c : ascii) (s : string) :
  Str.rev (String c s) = Str.rev s +:+ String c EmptyString.
Proof. unfold Str.rev at 1. simpl. apply rev_onto_app. Qed.

Lemma rev_app (a b : string) : Str.rev (a +:+ b) = Str.rev b +:+ Str.rev a.
Proof.
  induction a as [|c a IH]; [by rewrite str_app_nil_r|].
  by rewrite str_app_cons, !rev_cons, IH, str_app_assoc.
Qed.

Lemma rev_involutive (s : string) : Str.rev (Str.rev s) = s.
Proof.
  induction s as [|c s IH]; [done|]. by rewrite rev_cons, rev_app, IH.
Qed.

Lemma rev_length (s : string) : String.length (Str.rev s) = String.length s.
Proof.
  induction s as [|c s IH]; [done|]. rewrite rev_cons, str_length_app, IH. simpl. lia.
Qed.

Variable sp : string → bool.

Lemma lstrip_by_unfold (s : string) :
  Str.lstrip_by sp s =
  match prefix_by sp s with
  | Some rest => Str.lstrip_by sp rest
  | None => s
  end.
Proof.
  destruct s as [|c1 [|c2 [|c3 s3]]]; simpl; [done|..].
  - by destruct (sp _).
  - by destruct (sp (String c1 EmptyString)), (sp (String c1 (String c2 EmptyString))).
  - by destruct (sp (String c1 EmptyString)), (sp (String c1 (String c2 EmptyString))),
         (sp (String c1 (String c2 (String c3 EmptyString)))).
Qed.

Lemma all_by_unfold (s : string) :
  all_by sp s =
  match s with
  | EmptyString => true
  | String _ _ =>
      match prefix_by sp s with
      | Some rest => all_by sp rest
      | None => false
      end
  end.
Proof.
  destruct s as [|c1 [|c2 [|c3 s3]]]; simpl; [done|..].
  - by destruct (sp _).
  - by destruct (sp (String c1 EmptyString)), (sp (String c1 (String c2 EmptyString))).
  - by destruct (sp (String c1 EmptyString)), (sp (String c1 (String c2 EmptyString))),
         (sp (String c1 (String c2 (String c3 EmptyString)))).
Qed.

(** A character that [prefix_by] has dropped. *)
Lemma prefix_by_word (s rest : string) :
  prefix_by sp s = Some rest →
  ∃ w, s = w +:+ rest ∧ sp w = true ∧
       (1 ≤ String.length w ≤ 3)%nat.
Proof.
  destruct s as [|c1 [|c2 [|c3 s3]]]; simpl; [done|..].
  - destruct (sp _) eqn:H1; [|done]. intros [= <-].
    exists (String c1 EmptyString). simpl. repeat split; (done || lia).
  - destruct (sp (String c1 EmptyString)) eqn:H1.
    { intros [= <-]. exists (String c1 EmptyString). simpl. repeat split; (done || lia). }
    destruct (sp (String c1 (String c2 EmptyString))) eqn:H2; [|done].
    intros [= <-]. exists (String c1 (String c2 EmptyString)). simpl.
    repeat split; (done || lia).
  - destruct (sp (String c1 EmptyString)) eqn:H1.
    { intros [= <-]. exists (String c1 EmptyString). simpl. repeat split; (done || lia). }
    destruct (sp (String c1 (String c2 EmptyString))) eqn:H2.
    { intros [= <-]. exists (String c1 (String c2 EmptyString)). simpl.
      repeat split; (done || lia). }
    destruct (sp (String c1 (String c2 (String c3 EmptyString)))) eqn:H3; [|done].
    intros [= <-]. exists (String c1 (String c2 (String c3 EmptyString))). simpl.
    repeat split; (done || lia).
Qed.

Lemma prefix_by_shorter (s rest : string) :
  prefix_by sp s = Some rest → (String.length rest < String.length s)%nat.
Proof.
  intros (w & -> & _ & Hw)%prefix_by_word. rewrite str_length_app. lia.
Qed.

(** A text that starts with an accepted character has one dropped. *)
Lemma prefix_by_of_word (w x : string) :
  sp w = true → (1 ≤ String.length w ≤ 3)%nat →
  prefix_by sp (w +:+ x) ≠ None.
Proof.
  intros Hw Hlen. destruct w as [|c1 [|c2 [|c3 [|c4 w]]]]; simpl in Hlen; try lia.
  - rewrite str_app_cons. simpl. by rewrite Hw.
  - rewrite !str_app_cons. simpl. destruct (sp (String c1 EmptyString)); [done|].
    destruct x; by rewrite Hw.
  - rewrite !str_app_cons. simpl. destruct (sp (String c1 EmptyString)); [done|].
    destruct (sp (String c1 (String c2 EmptyString))); [done|].
    destruct x; by rewrite Hw.
Qed.

Lemma prefix_by_extend (u x : string) :
  prefix_by sp u ≠ None → prefix_by sp (u +:+ x) ≠ None.
Proof.
  destruct (prefix_by sp u) as [rest|] eqn:Hu; [|done]. intros _.
  apply prefix_by_word in Hu as (w & -> & Hw & Hlen).
  rewrite str_app_assoc. by apply prefix_by_of_word.
Qed.

Lemma lstrip_by_stable (s : string) :
  prefix_by sp (Str.lstrip_by sp s) = None.
Proof.
  induction s as [s IH] using string_length_ind. rewrite lstrip_by_unfold.
  destruct (prefix_by sp s) as [rest|] eqn:Hs; [|done].
  apply IH. by apply prefix_by_shorter.
Qed.

Lemma lstrip_by_fixed (s : string) :
  prefix_by sp s = None → Str.lstrip_by sp s = s.
Proof. intros H. by rewrite lstrip_by_unfold, H. Qed.

Lemma lstrip_by_idem (s : string) :
  Str.lstrip_by sp (Str.lstrip_by sp s) = Str.lstrip_by sp s.
Proof. apply lstrip_by_fixed, lstrip_by_stable. Qed.

Lemma lstrip_by_suffix (s : string) :
  ∃ pre, s = pre +:+ Str.lstrip_by sp s.
Proof.
  induction s as [s IH] using string_length_ind. rewrite lstrip_by_unfold.
  destruct (prefix_by sp s) as [rest|] eqn:Hs; [|by exists EmptyString].
  pose proof (prefix_by_shorter _ _ Hs) as Hlt.
  apply prefix_by_word in Hs as (w & -> & _ & _).
  destruct (IH rest Hlt) as [pre Hpre]. exists (w +:+ pre).
  by rewrite str_app_assoc, <- Hpre.
Qed.

Lemma all_by_lstrip (s : string) :
  all_by sp s = true ↔ Str.lstrip_by sp s = EmptyString.
Proof.
  induction s as [s IH] using string_length_ind.
  rewrite all_by_unfold, lstrip_by_unfold. destruct s as [|c s]; [done|].
  destruct (prefix_by sp (String c s)) as [rest|] eqn:Hs; [|done].
  apply IH. by apply prefix_by_shorter.
Qed.

(** A text of accepted characters that is not empty ends with one. *)
Lemma all_by_last (s : string) :
  all_by sp s = true → s ≠ EmptyString →
  ∃ front w, s = front +:+ w ∧ sp w = true ∧ (1 ≤ String.length w ≤ 3)%nat.
Proof.
  induction s as [s IH] using string_length_ind. rewrite all_by_unfold.
  destruct s as [|c s]; [done|]. intros Hall _.
  destruct (prefix_by sp (String c s)) as [rest|] eqn:Hs; [|done].
  pose proof (prefix_by_shorter _ _ Hs) as Hlt.
  apply prefix_by_word in Hs as (w & Heq & Hw & Hlen). rewrite Heq.
  destruct rest as [|c' rest].
  - exists EmptyString, w. by rewrite str_app_nil_r.
  - destruct (IH _ Hlt Hall) as (front & w' & -> & Hw' & Hlen'); [done|].
    exists (w +:+ front), w'. by rewrite str_app_assoc.
Qed.

End Stripping.

(* ===================================================================== *)
(** ** [str.strip] *)
(* ===================================================================== *)

(** One byte is a whitespace character exactly when it is one of the codes
    9 to 13 and 28 to 32. *)
Lemma is_space_byte (c : ascii) :
  Str.is_space (String c EmptyString) = AsciiText.is_space c.
Proof. by destruct c as [[] [] [] [] [] [] [] []]. Qed.

Lemma rstrip_prefix (t : string) : ∃ suf, t = Str.rstrip t +:+ suf.
Proof.
  unfold Str.rstrip.
  destruct (lstrip_by_suffix (λ w, Str.is_space (Str.rev w)) (Str.rev t)) as [pre H].
  exists (Str.rev pre). rewrite <- rev_app, <- H. by rewrite rev_involutive.
Qed.

Lemma rstrip_idem (t : string) : Str.rstrip (Str.rstrip t) = Str.rstrip t.
Proof. unfold Str.rstrip. by rewrite rev_involutive, lstrip_by_idem. Qed.

Lemma strip_no_prefix (s : string) : prefix_by Str.is_space (Str.strip s) = None.
Proof.
  unfold Str.strip. destruct (rstrip_prefix (Str.lstrip s)) as [suf H].
  destruct (prefix_by Str.is_space (Str.rstrip (Str.lstrip s))) eqn:Hp; [|done].
  exfalso.
  apply (prefix_by_extend Str.is_space (Str.rstrip (Str.lstrip s)) suf); [by rewrite Hp|].
  rewrite <- H. apply lstrip_by_stable.
Qed.

Lemma lstrip_strip (s : string) : Str.lstrip (Str.strip s) = Str.strip s.
Proof. apply lstrip_by_fixed, strip_no_prefix. Qed.

Lemma rstrip_strip (s : string) : Str.rstrip (Str.strip s) = Str.strip s.
Proof. apply rstrip_idem. Qed.

Lemma strip_idem (s : string) : Str.strip (Str.strip s) = Str.strip s.
Proof. unfold Str.strip at 1. by rewrite lstrip_strip, rstrip_strip. Qed.

Lemma strip_head (s : string) (c : ascii) (rest : string) :
  Str.strip s = String c rest → Str.is_space (String c EmptyString) = false.
Proof.
  intros H. pose proof (strip_no_prefix s) as Hp. rewrite H in Hp. simpl in Hp.
  by destruct (Str.is_space (String c EmptyString)).
Qed.

Lemma strip_last (s front : string) (c : ascii) :
  Str.strip s = front +:+ String c EmptyString →
  Str.is_space (String c EmptyString) = false.
Proof.
  unfold Str.strip, Str.rstrip. intros H.
  apply (f_equal Str.rev) in H. rewrite rev_involutive, rev_app in H.
  pose proof (lstrip_by_stable (λ w, Str.is_space (Str.rev w))
                (Str.rev (Str.lstrip s))) as Hp.
  rewrite H in Hp. change (Str.rev (String c EmptyString)) with (String c EmptyString) in Hp.
  rewrite str_app_cons in Hp. simpl in Hp.
  change (Str.rev (String c EmptyString)) with (String c EmptyString) in Hp.
  by destruct (Str.is_space (String c EmptyString)).
Qed.

Lemma rev_empty (s : string) : Str.rev s = EmptyString → s = EmptyString.
Proof.
  intros H. apply (f_equal String.length) in H. rewrite rev_length in H.
  by destruct s.
Qed.

(** Stripping leaves nothing exactly when every character is whitespace. *)
Lemma strip_empty_iff (s : string) :
  Str.strip s = EmptyString ↔ all_space s = true.
Proof.
  unfold all_space. rewrite all_by_lstrip. fold (Str.lstrip s). split.
  - unfold Str.strip, Str.rstrip. intros H%rev_empty.
    destruct (Str.lstrip s) as [|c t] eqn:Ht; [done|]. exfalso.
    apply all_by_lstrip in H.
    apply all_by_last in H as (front & w & Hrev & Hw & Hlen).
    2:{ intros Hr%rev_empty. discriminate Hr. }
    apply (f_equal Str.rev) in Hrev. rewrite rev_involutive, rev_app in Hrev.
    pose proof (lstrip_by_stable Str.is_space s) as Hp. fold (Str.lstrip s) in Hp.
    rewrite Ht, Hrev in Hp. revert Hp. apply prefix_by_of_word; [done|].
    by rewrite rev_length.
  - unfold Str.strip. by intros ->.
Qed.

(* ===================================================================== *)
(** ** Running the handler *)
(* ===================================================================== *)

(** Unfolds the handler and the monad down to the answers of the
    environment. *)
Ltac run_chat :=
  cbv [chat uuid4_str utcnow models_generate_content document_set print emit
       next_tick db_put lift raise try_except mbind mret M_bind M_ret
       result final events].

(** Splits on one answer of the environment or one truth value. *)
Ltac branch_on t := destruct t eqn:?; cbn [fst snd tick db trace andb] in *.

Ltac branch :=
  repeat match goal with
    | |- context [opt_truthy ?x] => branch_on (opt_truthy x)
    | |- context [save_enabled ?e] => branch_on (save_enabled e)
    | |- context [generate_content ?e ?n ?m ?c ?k] =>
        branch_on (generate_content e n m c k)
    | |- context [extract_reply_text ?r] => branch_on (extract_reply_text r)
    | |- context [slice_200 ?t] => is_var t; destruct t; cbn [slice_200 strip_text] in *
    | |- context [strip_text ?t] => is_var t; destruct t; cbn [slice_200 strip_text] in *
    | |- context [firestore_set ?e ?n ?c ?k ?d] =>
        branch_on (firestore_set e n c k d)
    end.

(** Brings the events of a run into the form of an explicit list. *)
Ltac tidy_events :=
  cbn [fst snd tick db trace] in *;
  rewrite <- ?(assoc_L (++)) in *;
  rewrite ?drop_app_length, ?drop_all in *;
  cbn [app] in *.

Lemma opt_truthy_supplied (o : option string) :
  opt_truthy o = true ↔ ∃ s, supplied o s.
Proof.
  unfold supplied. destruct o as [[|c s]|]; simpl; split; try done.
  - intros [s [? ?]]. congruence.
  - intros _. by exists (String c s).
  - intros [s [? ?]]. congruence.
Qed.

Lemma supplied_default (o : option string) (s : string) :
  supplied o s → default EmptyString o = s.
Proof. by intros [-> _]. Qed.

(** The branch taken when the scan finds a keyword. *)
Lemma crisis_run (env : Env) (req : ChatRequest.t) (st : State) :
  contains_risk (str_lower env) (ChatRequest.message req) = true →
  (∃ r, result (chat env req st) = Ok r ∧ ChatResponse.reply r = CRISIS_REPLY) ∧
  Forall (λ ev, is_model_call ev = false) (events st (chat env req st)).
Proof.
  intros H. run_chat. rewrite H. branch; tidy_events.
  all: split; [eexists; split; reflexivity | repeat constructor].
Qed.

(** C1: a request whose message contains a risk keyword as a
    case-insensitive substring is answered with the fixed crisis reply, and
    the model client is not called on that path.  The keyword is contained
    in the lower-cased message, or, with what is known of lower-casing,
    some stretch of the message differs from it by the case of ASCII
    letters only. *)
Theorem C1_crisis_reply_without_model (env : Env) (req : ChatRequest.t) (st : State) :
  flagged (str_lower env) (ChatRequest.message req) ∨
  (PythonLower (str_lower env) ∧ risk_flagged (ChatRequest.message req)) →
  (∃ r, result (chat env req st) = Ok r ∧ ChatResponse.reply r = CRISIS_REPLY) ∧
  Forall (λ ev, is_model_call ev = false) (events st (chat env req st)).
Proof.
  intros H. apply crisis_run, contains_risk_flagged.
  destruct H as [H | [Hlow H]]; [done|]. by apply risk_flagged_flagged.
Qed.

Lemma C1_witness :
  (∃ r, result (chat (sample_env true (inr tough_reply) None) end_my_life_saved st0) = Ok r ∧
        ChatResponse.reply r = CRISIS_REPLY) ∧
  Forall (λ ev, is_model_call ev = false)
    (events st0 (chat (sample_env true (inr tough_reply) None) end_my_life_saved st0)).
Proof.
  apply C1_crisis_reply_without_model. right. split; [apply ascii_lower_python|].
  exists "end my life". split; [set_solver|].
  exists "I want to ", "END my life", EmptyString. split; reflexivity.
Defined.

(** C9: the crisis branch is total.  A risk-flagged request, whatever its
    session id, history and ciphertext, and whatever the clients answer,
    is answered with a response; no exception leaves the handler. *)
Theorem C9_crisis_branch_total (env : Env) (req : ChatRequest.t) (st : State) :
  flagged (str_lower env) (ChatRequest.message req) ∨
  (PythonLower (str_lower env) ∧ risk_flagged (ChatRequest.message req)) →
  ∃ r, chat env req st = (Ok r, final (chat env req st)).
Proof.
  intros H.
  assert (contains_risk (str_lower env) (ChatRequest.message req) = true) as Hrisk.
  { apply contains_risk_flagged. destruct H as [H | [Hlow H]]; [done|].
    by apply risk_flagged_flagged. }
  run_chat. rewrite Hrisk. branch; eauto.
Qed.

Lemma C9_witness :
  ∃ r, chat (sample_env true (inl (ClientError "quota")) (Some (ClientError "denied")))
         end_my_life_saved st0
       = (Ok r, final (chat (sample_env true (inl (ClientError "quota"))
                               (Some (ClientError "denied")))
                         end_my_life_saved st0)).
Proof.
  apply C9_crisis_branch_total. left.
  exists "end my life". split; [set_solver|].
  exists "i want to ", EmptyString. reflexivity.
Defined.

(** Both branches at once: splits on the risk scan first. *)
Ltac run_both req :=
  run_chat; destruct (contains_risk _ (ChatRequest.message req)) eqn:?;
  branch; tidy_events.

(** Case analysis on which event of an explicit list [H] speaks about. *)
Ltac which_event H :=
  repeat (apply elem_of_cons in H as [H | H];
          [first [discriminate H | injection H as -> -> -> -> | subst] | ]);
  try (by apply not_elem_of_nil in H).

(** C4: on either branch a write to the store is attempted only when the
    caller supplied a non-empty ciphertext and persistence is configured;
    otherwise nothing is written, the store is left as it was and a
    response carries saved = false. *)
Theorem C4_write_only_on_opt_in (env : Env) (req : ChatRequest.t) (st : State) :
  (∀ ev, ev ∈ events st (chat env req st) → is_write ev = true →
     (∃ c, supplied (ChatRequest.save_opt_in_ciphertext req) c) ∧
     save_enabled env = true) ∧
  ((¬ ∃ c, supplied (ChatRequest.save_opt_in_ciphertext req) c) ∨
   save_enabled env = false →
     Forall (λ ev, is_write ev = false) (events st (chat env req st)) ∧
     db (final (chat env req st)) = db st ∧
     ∀ r, result (chat env req st) = Ok r → ChatResponse.saved r = false).
Proof.
  split.
  - intros ev. run_both req; intros Hin Hw; which_event Hin.
    all: try done.
    all: split; [by apply opt_truthy_supplied | done].
  - intros Hoff.
    assert (opt_truthy (ChatRequest.save_opt_in_ciphertext req) && save_enabled env = false) as Hc.
    { destruct Hoff as [Hn | ->]; [|apply andb_false_r].
      rewrite <- opt_truthy_supplied in Hn.
      by destruct (opt_truthy (ChatRequest.save_opt_in_ciphertext req)). }
    revert Hc. run_both req; intros Hc; try discriminate Hc.
    all: split; [repeat constructor | split; [done | intros ? ?; by simplify_eq/=]].
Qed.

Lemma C4_witness :
  Forall (λ ev, is_write ev = false)
    (events st0 (chat (sample_env false (inr tough_reply) None) rough_day_saved st0)) ∧
  db (final (chat (sample_env false (inr tough_reply) None) rough_day_saved st0)) = db st0 ∧
  ∀ r, result (chat (sample_env false (inr tough_reply) None) rough_day_saved st0) = Ok r →
       ChatResponse.saved r = false.
Proof.
  apply (C4_write_only_on_opt_in (sample_env false (inr tough_reply) None) rough_day_saved st0).
  right. reflexivity.
Defined.

(** C5: on either branch a failing write does not fail the request.  When
    a write was attempted the handler returns a response; its saved flag is
    false when the write raised (the exception is printed and the store is
    unchanged) and true when the write went through. *)
Theorem C5_write_failure_not_fatal (env : Env) (req : ChatRequest.t) (st : State)
    (c k : string) (d : Dict) (failure : option Exn) :
  FirestoreSet c k d failure ∈ events st (chat env req st) →
  ∃ r, result (chat env req st) = Ok r ∧
       match failure with
       | Some e =>
           ChatResponse.saved r = false ∧
           Printed "Firestore save failed:" e ∈ events st (chat env req st) ∧
           db (final (chat env req st)) = db st
       | None =>
           ChatResponse.saved r = true ∧
           db (final (chat env req st)) = <[(c, k) := d]> (db st)
       end.
Proof.
  run_both req; intros Hin; which_event Hin.
  all: eexists; split; [reflexivity|]; cbn [ChatResponse.saved].
  all: repeat split; set_solver.
Qed.

Lemma C5_witness :
  ∃ r, result (chat (sample_env true (inr tough_reply) (Some (ClientError "denied")))
                 rough_day_saved st0) = Ok r ∧
       ChatResponse.saved r = false ∧
       Printed "Firestore save failed:" (ClientError "denied")
         ∈ events st0 (chat (sample_env true (inr tough_reply) (Some (ClientError "denied")))
                         rough_day_saved st0) ∧
       db (final (chat (sample_env true (inr tough_reply) (Some (ClientError "denied")))
                    rough_day_saved st0)) = db st0.
Proof.
  eapply (C5_write_failure_not_fatal
            (sample_env true (inr tough_reply) (Some (ClientError "denied")))
            rough_day_saved st0 _ _ _ (Some (ClientError "denied"))).
  vm_compute. apply list_elem_of_further, list_elem_of_here.
Defined.

Lemma slice_to_first_chars (n : nat) (s : string) :
  first_chars n s (Str.slice_to n s).
Proof. split; [apply slice_to_prefix | apply slice_to_count]. Qed.

(** C6: every record handed to the store is keyed by the session id and
    holds the session id, the ciphertext of the caller as supplied, the
    creation timestamp (the timestamp of the response) and opt_in = true.
    A record of the crisis branch has no snippet field; a record of the
    other branch has a snippet, the first 200 characters (not bytes) of the
    reply text taken from the response of the model, the text that the
    returned reply is the trimmed form of.  A write that went through
    leaves that record in the store. *)
Theorem C6_record_contents (env : Env) (req : ChatRequest.t) (st : State)
    (c k : string) (d : Dict) (failure : option Exn) :
  FirestoreSet c k d failure ∈ events st (chat env req st) →
  ∃ r ct,
    result (chat env req st) = Ok r ∧
    supplied (ChatRequest.save_opt_in_ciphertext req) ct ∧
    c = "saved_sessions" ∧ k = ChatResponse.session_id r ∧
    d !! "session_id" = Some (PyStr (ChatResponse.session_id r)) ∧
    d !! "ciphertext" = Some (PyStr ct) ∧
    d !! "created_at" = Some (PyStr (ChatResponse.timestamp r)) ∧
    d !! "opt_in" = Some (PyBool true) ∧
    (flagged (str_lower env) (ChatRequest.message req) → d !! "snippet" = None) ∧
    (¬ flagged (str_lower env) (ChatRequest.message req) →
       ∃ model prompt n resp text snippet,
         GenerateContent model prompt n (inr resp) ∈ events st (chat env req st) ∧
         extract_reply_text resp = Ok (Some text) ∧
         d !! "snippet" = Some (PyStr snippet) ∧
         first_chars 200 text snippet ∧
         ChatResponse.reply r = Str.strip text) ∧
    (failure = None → db (final (chat env req st)) !! (c, k) = Some d).
Proof.
  run_both req; intros Hin; which_event Hin.
  all: match goal with
       | H : opt_truthy (ChatRequest.save_opt_in_ciphertext _) = true |- _ =>
           apply opt_truthy_supplied in H as [ct Hct];
           rewrite (supplied_default _ _ Hct)
       end.
  all: eexists _, ct; split; [reflexivity|]; split; [done|].
  all: cbn [ChatResponse.session_id ChatResponse.timestamp ChatResponse.reply].
  all: do 6 (split; [reflexivity|]).
  all: rewrite <- contains_risk_flagged.
  all: (split; [first [reflexivity | congruence] | split]).
  all: try (intros _; do 6 eexists; split; [apply list_elem_of_here|];
            split; [eassumption|]; split; [reflexivity|];
            split; [apply slice_to_first_chars | reflexivity]).
  all: try done.
  all: try (intros _; apply lookup_insert_eq).
Qed.

Lemma C6_witness :
  ∃ r ct,
    result (chat (sample_env true (inr tough_reply) None) rough_day_saved st0) = Ok r ∧
    supplied (ChatRequest.save_opt_in_ciphertext rough_day_saved) ct ∧
    "saved_sessions" = "saved_sessions" ∧ "s-1" = ChatResponse.session_id r ∧
    rough_day_record !! "session_id" = Some (PyStr (ChatResponse.session_id r)) ∧
    rough_day_record !! "ciphertext" = Some (PyStr ct) ∧
    rough_day_record !! "created_at" = Some (PyStr (ChatResponse.timestamp r)) ∧
    rough_day_record !! "opt_in" = Some (PyBool true) ∧
    (flagged AsciiText.lower (ChatRequest.message rough_day_saved) →
       rough_day_record !! "snippet" = None) ∧
    (¬ flagged AsciiText.lower (ChatRequest.message rough_day_saved) →
       ∃ model prompt n resp text snippet,
         GenerateContent model prompt n (inr resp)
           ∈ events st0 (chat (sample_env true (inr tough_reply) None) rough_day_saved st0) ∧
         extract_reply_text resp = Ok (Some text) ∧
         rough_day_record !! "snippet" = Some (PyStr snippet) ∧
         first_chars 200 text snippet ∧
         ChatResponse.reply r = Str.strip text) ∧
    (@None Exn = None →
       db (final (chat (sample_env true (inr tough_reply) None) rough_day_saved st0))
         !! ("saved_sessions", "s-1") = Some rough_day_record).
Proof.
  apply (C6_record_contents (sample_env true (inr tough_reply) None)
           rough_day_saved st0 "saved_sessions" "s-1" rough_day_record None).
  vm_compute. apply list_elem_of_further, list_elem_of_here.
Defined.

(* ===================================================================== *)

(* ===================================================================== *)
(** ** The prompt *)
(* ===================================================================== *)

Lemma join_foldr {A} (sep : string) (f : A → string) (x y : string) (l : list A) :
  Str.join sep (x :: map f l ++ [y]) =
  x +:+ foldr (λ m rest, sep +:+ f m +:+ rest) (sep +:+ y) l.
Proof.
  revert x. induction l as [|m l IH]; intros x; [done|].
  cbn [map app foldr]. rewrite <- IH. reflexivity.
Qed.

Lemma render_entry_spec (m : Dict) :
  render_entry m = entry_role m +:+ ": " +:+ entry_text m.
Proof.
  unfold render_entry, entry_role, entry_text, dict_get.
  by destruct (m !! "role"), (m !! "text").
Qed.

Lemma prompt_parts_eq (req : ChatRequest.t) :
  prompt_parts req =
  SYSTEM_PROMPT :: map render_entry (default [] (ChatRequest.history req))
    ++ ["user: " +:+ ChatRequest.message req].
Proof. unfold prompt_parts. by destruct (ChatRequest.history req) as [[|m ms]|]. Qed.

(** The joined parts are the prompt of the specification. *)
Lemma spec_entries_app (a b : list Dict) :
  spec_entries (a ++ b) = spec_entries a +:+ spec_entries b.
Proof.
  induction a as [|m a IH]; [done|]. cbn [app spec_entries].
  by rewrite IH, !str_app_assoc.
Qed.

(** The joined parts are the prompt of the specification. *)
Lemma build_prompt_spec (req : ChatRequest.t) :
  build_prompt req = spec_prompt req.
Proof.
  unfold build_prompt, spec_prompt. rewrite prompt_parts_eq, join_foldr.
  f_equal. induction (default [] (ChatRequest.history req)) as [|m l IH]; [done|].
  cbn [foldr spec_entries]. by rewrite IH, render_entry_spec, !str_app_assoc.
Qed.

(** The model is called exactly once in the other branch. *)
Lemma one_model_call (env : Env) (req : ChatRequest.t) (st : State) :
  contains_risk (str_lower env) (ChatRequest.message req) = false →
  ∃ outcome,
    List.filter is_model_call (events st (chat env req st)) =
    [GenerateContent "gemini-2.5-flash" (build_prompt req) 400 outcome].
Proof.
  intros H. run_chat. rewrite H. branch; tidy_events; eexists; reflexivity.
Qed.

(** C2: a request whose message contains no risk keyword makes exactly one
    model call, and the prompt it sends is the system instruction, then
    each history entry as "<role>: <text>" in the original order (the role
    is "user" when absent), then "user: <message>", separated by blank
    lines. *)
Theorem C2_one_model_call_with_prompt (env : Env) (req : ChatRequest.t) (st : State) :
  ¬ flagged (str_lower env) (ChatRequest.message req) →
  ∃ outcome,
    List.filter is_model_call (events st (chat env req st)) =
    [GenerateContent "gemini-2.5-flash" (spec_prompt req) 400 outcome].
Proof.
  intros H%contains_risk_not_flagged. rewrite <- build_prompt_spec.
  by apply one_model_call.
Qed.

Lemma C2_witness :
  ∃ outcome,
    List.filter is_model_call
      (events st0 (chat (sample_env false (inr tough_reply) None) rough_day st0)) =
    [GenerateContent "gemini-2.5-flash"
       (SYSTEM_PROMPT +:+ spec_separator +:+ "user: hi" +:+ spec_separator +:+
        "user: I had a rough day") 400 outcome].
Proof.
  apply (C2_one_model_call_with_prompt (sample_env false (inr tough_reply) None)
           rough_day st0).
  apply contains_risk_not_flagged. vm_compute. reflexivity.
Defined.

(** C10: a history entry without a "text" field is neither rejected nor
    skipped.  The model is still called once, and in the prompt the entry
    stands at its place, between the entries before and after it, as its
    role label followed by ": None" (so "user: None" when the role is
    absent too). *)
Theorem C10_missing_text_rendered_as_None (env : Env) (req : ChatRequest.t)
    (st : State) (before after : list Dict) (m : Dict) :
  ¬ flagged (str_lower env) (ChatRequest.message req) →
  ChatRequest.history req = Some (before ++ m :: after) →
  m !! "text" = None →
  ∃ outcome,
    List.filter is_model_call (events st (chat env req st)) =
    [GenerateContent "gemini-2.5-flash"
       (SYSTEM_PROMPT +:+ spec_entries before +:+
        spec_separator +:+
        match m !! "role" with Some v => py_str v | None => "user" end +:+ ": None" +:+
        spec_entries after +:+
        spec_separator +:+ "user: " +:+ ChatRequest.message req)
       400 outcome].
Proof.
  intros H%contains_risk_not_flagged Hh Ht.
  destruct (one_model_call env req st H) as [outcome Hcall].
  exists outcome. rewrite Hcall. do 2 f_equal.
  rewrite build_prompt_spec. unfold spec_prompt. rewrite Hh. cbn [from_option id].
  rewrite spec_entries_app. cbn [spec_entries]. unfold entry_role, entry_text.
  rewrite Ht. by rewrite !str_app_assoc.
Qed.

Lemma C10_witness :
  ∃ outcome,
    List.filter is_model_call
      (events st0 (chat (sample_env false (inr tough_reply) None) hello_again st0)) =
    [GenerateContent "gemini-2.5-flash"
       (SYSTEM_PROMPT +:+ spec_separator +:+ "user: None" +:+ spec_separator +:+
        "user: hello again") 400 outcome].
Proof.
  apply (C10_missing_text_rendered_as_None (sample_env false (inr tough_reply) None)
           hello_again st0 [] [] bare_entry).
  - apply contains_risk_not_flagged. vm_compute. reflexivity.
  - reflexivity.
  - reflexivity.
Defined.


(* ===================================================================== *)
(** ** The reply text *)
(* ===================================================================== *)

Lemma direct_text_falsy (resp : GenAI.Response) :
  opt_truthy (getattr (GenAI.text resp) None) = false ↔ no_direct_text resp.
Proof.
  unfold no_direct_text.
  destruct (GenAI.text resp) as [|[[|c t]|]]; simpl; split; intros H.
  all: first [ solve [auto] | discriminate H
             | destruct H as [H | [H | H]]; discriminate H ].
Qed.

Lemma first_segment_raises (cands : list GenAI.Candidate) :
  (∃ e, first_segment_text cands = Raised e) ↔
  cands = [] ∨ ∃ c cs, cands = c :: cs ∧ GenAI.content c = [].
Proof.
  destruct cands as [|c cs]; simpl.
  { split; [auto | eauto]. }
  destruct (GenAI.content c) as [|seg segs] eqn:Hc.
  - split; [intros _; right; eauto | eauto].
  - split; [intros [e He]; discriminate He|].
    intros [H | (c' & cs' & H & Hc')]; [discriminate H|].
    injection H as <- <-. congruence.
Qed.

Lemma extract_raises_iff (resp : GenAI.Response) :
  (∃ e, extract_reply_text resp = Raised e) ↔
  no_direct_text resp ∧ no_first_segment resp.
Proof.
  rewrite <- direct_text_falsy. unfold extract_reply_text, no_first_segment.
  destruct (opt_truthy _).
  { split; [intros [e He]; discriminate He | intros [H _]; discriminate H]. }
  destruct (GenAI.candidates resp) as [|cands]; simpl.
  { split; [intros [e He]; discriminate He|].
    intros [_ [H | (c & cs & H & _)]]; discriminate H. }
  rewrite first_segment_raises. split.
  - intros [-> | (c & cs & -> & Hc)]; split; eauto.
  - intros [_ [H | (c & cs & H & Hc)]]; injection H as ->; eauto.
Qed.

Lemma extract_direct (resp : GenAI.Response) (t : string) :
  GenAI.text resp = Attr (Some t) → t ≠ EmptyString →
  extract_reply_text resp = Ok (Some t).
Proof. unfold extract_reply_text. intros -> ?. by destruct t. Qed.

Lemma extract_first_segment (resp : GenAI.Response)
    (c : GenAI.Candidate) (cs : list GenAI.Candidate)
    (seg : GenAI.Segment) (segs : list GenAI.Segment) :
  no_direct_text resp →
  GenAI.candidates resp = Attr (c :: cs) → GenAI.content c = seg :: segs →
  extract_reply_text resp = Ok (GenAI.seg_text seg).
Proof.
  intros H%direct_text_falsy Hc Hs. unfold extract_reply_text.
  rewrite H, Hc. simpl. by rewrite Hs.
Qed.

Lemma extract_stringified (resp : GenAI.Response) :
  no_direct_text resp → GenAI.candidates resp = NoAttr →
  extract_reply_text resp = Ok (Some (GenAI.to_str resp)).
Proof.
  intros H%direct_text_falsy Hc. unfold extract_reply_text. by rewrite H, Hc.
Qed.

(** What the handler makes of the response of a model call that returned. *)
Lemma chat_after_model_call (env : Env) (req : ChatRequest.t) (st : State)
    (model prompt : string) (n : Z) (resp : GenAI.Response) :
  GenerateContent model prompt n (inr resp) ∈ events st (chat env req st) →
  match extract_reply_text resp with
  | Ok (Some t) =>
      ∃ r, result (chat env req st) = Ok r ∧ ChatResponse.reply r = Str.strip t
  | Ok None => True
  | Raised _ => result (chat env req st) = Raised AI_GENERATION_FAILED
  end.
Proof.
  run_both req; intros Hin; which_event Hin.
  all: repeat match goal with
              | H : extract_reply_text ?r = _, H' : extract_reply_text ?r = _ |- _ =>
                  rewrite H in H'; simplify_eq
              end.
  all: first [reflexivity | done | eexists; split; reflexivity].
Qed.

(** C7, amended: after a model call that returned, the reply text is the
    direct text field of the response when that field is present and not
    empty; otherwise, when the response has a candidates attribute, the
    text of the first content segment of the first candidate when that
    text is a string, and the request fails with "AI generation failed"
    when there is no such segment; otherwise the stringified response.
    The returned reply is that text with surrounding whitespace trimmed. *)
Theorem C7_reply_extraction (env : Env) (req : ChatRequest.t) (st : State)
    (model prompt : string) (n : Z) (resp : GenAI.Response) :
  GenerateContent model prompt n (inr resp) ∈ events st (chat env req st) →
  (∀ t, GenAI.text resp = Attr (Some t) → t ≠ EmptyString →
     ∃ r, result (chat env req st) = Ok r ∧ ChatResponse.reply r = Str.strip t) ∧
  (no_direct_text resp →
     ∀ c cs seg segs t,
       GenAI.candidates resp = Attr (c :: cs) → GenAI.content c = seg :: segs →
       GenAI.seg_text seg = Some t →
       ∃ r, result (chat env req st) = Ok r ∧ ChatResponse.reply r = Str.strip t) ∧
  (no_direct_text resp → no_first_segment resp →
     result (chat env req st) = Raised AI_GENERATION_FAILED) ∧
  (no_direct_text resp → GenAI.candidates resp = NoAttr →
     ∃ r, result (chat env req st) = Ok r ∧
          ChatResponse.reply r = Str.strip (GenAI.to_str resp)).
Proof.
  intros Hin%chat_after_model_call. repeat split.
  - intros t Ht Hne. by rewrite (extract_direct _ _ Ht Hne) in Hin.
  - intros Hd c cs seg segs t Hc Hs Ht.
    by rewrite (extract_first_segment _ _ _ _ _ Hd Hc Hs), Ht in Hin.
  - intros Hd Hs.
    destruct (proj2 (extract_raises_iff resp) (conj Hd Hs)) as [e He].
    by rewrite He in Hin.
  - intros Hd Hc. by rewrite (extract_stringified _ Hd Hc) in Hin.
Qed.

Lemma C7_witness :
  (∃ r, result (chat (sample_env false (inr unicode_reply) None) rough_day st0) = Ok r ∧
        ChatResponse.reply r =
        Str.strip (Str.utf8 0xA0 +:+ "caf" +:+ Str.utf8 0xE9 +:+ " 5" +:+
                   Str.utf8 0x20AC +:+ Str.utf8 0x3000)) ∧
  (∃ r, result (chat (sample_env false (inr candidate_response) None) rough_day st0) = Ok r ∧
        ChatResponse.reply r = Str.strip " from a candidate ") ∧
  result (chat (sample_env false (inr no_candidate_response) None) rough_day st0)
    = Raised AI_GENERATION_FAILED ∧
  (∃ r, result (chat (sample_env false (inr empty_text_response) None) rough_day st0) = Ok r ∧
        ChatResponse.reply r = Str.strip (GenAI.to_str empty_text_response)).
Proof.
  split; [|split; [|split]].
  - apply (C7_reply_extraction (sample_env false (inr unicode_reply) None) rough_day st0
             "gemini-2.5-flash" (build_prompt rough_day) 400 unicode_reply);
      [vm_compute; apply list_elem_of_here | reflexivity | discriminate].
  - apply (proj1 (proj2
             (C7_reply_extraction (sample_env false (inr candidate_response) None)
                rough_day st0 "gemini-2.5-flash" (build_prompt rough_day) 400
                candidate_response ltac:(vm_compute; apply list_elem_of_here)))
             ltac:(right; left; reflexivity)
             {| GenAI.content := [ {| GenAI.seg_text := Some " from a candidate " |} ] |}
             [] {| GenAI.seg_text := Some " from a candidate " |} []);
      reflexivity.
  - apply (proj1 (proj2 (proj2
             (C7_reply_extraction (sample_env false (inr no_candidate_response) None)
                rough_day st0 "gemini-2.5-flash" (build_prompt rough_day) 400
                no_candidate_response ltac:(vm_compute; apply list_elem_of_here)))));
      [right; left; reflexivity | left; reflexivity].
  - apply (proj2 (proj2 (proj2
             (C7_reply_extraction (sample_env false (inr empty_text_response) None)
                rough_day st0 "gemini-2.5-flash" (build_prompt rough_day) 400
                empty_text_response ltac:(vm_compute; apply list_elem_of_here)))));
      [right; right; reflexivity | reflexivity].
Defined.

(** The claim of C7 as worded fails when the direct text field is present
    but empty: the reply is the stringified response, not the (empty)
    direct text trimmed. *)
Lemma C7_counterexample :
  GenAI.text empty_text_response = Attr (Some EmptyString) ∧
  ∃ r, result (chat (sample_env false (inr empty_text_response) None) rough_day st0) = Ok r ∧
       ChatResponse.reply r = "<response>" ∧
       ChatResponse.reply r ≠ Str.strip EmptyString.
Proof.
  split; [reflexivity|]. eexists. split; [vm_compute; reflexivity|].
  split; [reflexivity | discriminate].
Qed.

(* ===================================================================== *)
(** ** Failure of the generation *)
(* ===================================================================== *)

Ltac same_extraction :=
  repeat match goal with
    | H : extract_reply_text ?r = _, H' : extract_reply_text ?r = _ |- _ =>
        rewrite H in H'; simplify_eq
    end.





(* ===================================================================== *)
(* ===================================================================== *)
(** ** The session id *)
(* ===================================================================== *)








(* ===================================================================== *)
(** ** The two examples of the specification, and the string operations
       on small inputs *)
(* ===================================================================== *)

Example crisis_example :
  chat (sample_env true (inr tough_reply) None)
       (ChatRequest.mk None "I want to end my life" None None) st0
  = (Ok (ChatResponse.mk "-0000" CRISIS_REPLY "2025-01-01T12:00:00Z" false),
     {| tick := 2; db := ∅; trace := [] |}).
Proof. vm_compute. reflexivity. Qed.

Example rough_day_example :
  result (chat (sample_env true (inr tough_reply) None) rough_day st0)
  = Ok (ChatResponse.mk "-0000" "That sounds tough, want to talk about it?"
          "2025-01-01T12:00:00Z" false).
Proof. vm_compute. reflexivity. Qed.

Example rough_day_saved_store :
  db (final (chat (sample_env true (inr tough_reply) None) rough_day_saved st0))
  = {[ ("saved_sessions", "s-1") := rough_day_record ]}.
Proof. vm_compute. reflexivity. Qed.

Example unicode_reply_example :
  result (chat (sample_env true (inr unicode_reply) None) rough_day st0)
  = Ok (ChatResponse.mk "-0000"
          ("caf" +:+ Str.utf8 0xE9 +:+ " 5" +:+ Str.utf8 0x20AC)
          "2025-01-01T12:00:00Z" false).
Proof. vm_compute. reflexivity. Qed.

Example contains_risk_upper :
  contains_risk AsciiText.lower "I want to END MY LIFE" = true.
Proof. vm_compute. reflexivity. Qed.

Example contains_risk_none :
  contains_risk AsciiText.lower "I had a rough day" = false.
Proof. vm_compute. reflexivity. Qed.

(** The scan follows the lower-casing of the interpreter: with one that
    knows the Kelvin sign the message is flagged and the handler answers
    with the crisis reply, without a model call. *)
Example kelvin_example :
  contains_risk kelvin_lower kelvin_message = true ∧
  chat kelvin_env (ChatRequest.mk (Some "s-3") kelvin_message None None) st0
  = (Ok (ChatResponse.mk "s-3" CRISIS_REPLY "2025-01-01T12:00:00Z" false),
     {| tick := 1; db := ∅; trace := [] |}).
Proof. split; vm_compute; reflexivity. Qed.

Example utf8_examples :
  Str.utf8 0x20 = " " ∧
  Str.utf8 0xA0 = String (ascii_of_nat 194) (String (ascii_of_nat 160) EmptyString) ∧
  Str.utf8 0x3000 =
    String (ascii_of_nat 227) (String (ascii_of_nat 128)
      (String (ascii_of_nat 128) EmptyString)) ∧
  Str.utf8 0x1F600 =
    String (ascii_of_nat 240) (String (ascii_of_nat 159)
      (String (ascii_of_nat 152) (String (ascii_of_nat 128) EmptyString))).
Proof. repeat split. Qed.

Example strip_both_ends :
  Str.strip (Str.utf8 0xA0 +:+ String "009" " a" +:+ Str.utf8 0x3000 +:+ "b " +:+
             Str.utf8 0x2028 +:+ blank_line)
  = "a" +:+ Str.utf8 0x3000 +:+ "b".
Proof. vm_compute. reflexivity. Qed.

Example slice_counts_characters :
  Str.slice_to 2 (Str.utf8 0xE9 +:+ Str.utf8 0x20AC +:+ "x")
  = Str.utf8 0xE9 +:+ Str.utf8 0x20AC.
Proof. vm_compute. reflexivity. Qed.

(** A snippet of 200 characters of two bytes each. *)
Example snippet_of_long_text :
  slice_200 (Some (Str.join EmptyString (replicate 201 (Str.utf8 0xE9))))
  = Ok (Str.join EmptyString (replicate 200 (Str.utf8 0xE9))) ∧
  String.length (Str.join EmptyString (replicate 200 (Str.utf8 0xE9))) = 400%nat.
Proof. split; vm_compute; reflexivity. Qed.

Example join_three : Str.join ", " ["a"; "b"; "c"] = "a, b, c".
Proof. vm_compute. reflexivity. Qed.

(* ===================================================================== *)
(** ** More on the risk scan *)
(* ===================================================================== *)

Lemma ascii_count_app (a b : string) :
  AsciiText.count (a +:+ b) = (AsciiText.count a + AsciiText.count b)%nat.
Proof.
  induction a as [|c a IH]; [done|]. rewrite str_app_cons. simpl. rewrite IH. lia.
Qed.

Lemma char_count_le_length (s : string) :
  (Str.char_count s ≤ String.length s)%nat.
Proof.
  induction s as [|c s IH]; [done|]. simpl. destruct (Str.is_continuation c); lia.
Qed.

Lemma occurs_in_trans (a b c : string) :
  occurs_in a b → occurs_in b c → occurs_in a c.
Proof.
  intros (p1 & q1 & ->) (p2 & q2 & ->). exists (p2 +:+ p1), (q1 +:+ q2).
  by rewrite !str_app_assoc.
Qed.

Lemma risk_flagged_embedding (before msg after : string) :
  risk_flagged msg → risk_flagged (before +:+ msg +:+ after).
Proof.
  intros (k & Hk & pre & mid & post & -> & Hmid). exists k. split; [done|].
  exists (before +:+ pre), mid, (post +:+ after). split; [|done].
  by rewrite !str_app_assoc.
Qed.

(** X1: the scan is monotone: a message that contains a keyword, the case
    of ASCII letters ignored, is flagged, and it stays flagged when text
    is put before and after it. *)
Theorem X1_contains_risk_embedding (lower : string → string)
    (before msg after : string) :
  PythonLower lower →
  risk_flagged msg →
  contains_risk lower msg = true ∧
  contains_risk lower (before +:+ msg +:+ after) = true.
Proof.
  intros Hlow H. rewrite !contains_risk_flagged.
  split; apply risk_flagged_flagged; try done. by apply risk_flagged_embedding.
Qed.

Lemma X1_witness :
  contains_risk AsciiText.lower "I want to die" = true ∧
  contains_risk AsciiText.lower
    ("hello. " +:+ "I want to die" +:+ " -- sent from my phone") = true.
Proof.
  apply X1_contains_risk_embedding; [apply ascii_lower_python|].
  apply contains_risk_iff. vm_compute. reflexivity.
Defined.

(** With ASCII lower-casing, where the scan decides [risk_flagged], that is
    monotonicity of the scan itself. *)
Lemma contains_risk_embedding_ascii (before msg after : string) :
  contains_risk AsciiText.lower msg = true →
  contains_risk AsciiText.lower (before +:+ msg +:+ after) = true.
Proof. rewrite !contains_risk_iff. apply risk_flagged_embedding. Qed.

Lemma keywords_long :
  Forall (λ k, (7 ≤ AsciiText.count k)%nat) RISK_KEYWORDS.
Proof. repeat constructor; simpl; lia. Qed.

(** X2: a message of fewer than seven characters, the empty message
    included, is never flagged: the handler forwards it to the model.
    (Fewer than seven bytes is a case of it.) *)
Theorem X2_short_message_goes_to_model (env : Env) (req : ChatRequest.t) (st : State) :
  PythonLower (str_lower env) →
  (Str.char_count (ChatRequest.message req) < 7)%nat →
  contains_risk (str_lower env) (ChatRequest.message req) = false ∧
  ∃ outcome,
    List.filter is_model_call (events st (chat env req st)) =
    [GenerateContent "gemini-2.5-flash" (build_prompt req) 400 outcome].
Proof.
  intros Hlow Hlen.
  assert (contains_risk (str_lower env) (ChatRequest.message req) = false) as Hno.
  { apply contains_risk_not_flagged. intros (k & Hk & pre & post & Hocc).
    pose proof (lower_ascii_count _ Hlow (ChatRequest.message req)) as Hcount.
    rewrite Hocc, !ascii_count_app in Hcount.
    pose proof keywords_long as HF. rewrite Forall_forall in HF.
    specialize (HF k Hk). lia. }
  split; [done|]. by apply one_model_call.
Qed.

Lemma X2_witness :
  contains_risk AsciiText.lower
    (ChatRequest.message (ChatRequest.mk None EmptyString None None)) = false ∧
  ∃ outcome,
    List.filter is_model_call
      (events st0 (chat (sample_env true (inr tough_reply) None)
                     (ChatRequest.mk None EmptyString None None) st0)) =
    [GenerateContent "gemini-2.5-flash"
       (build_prompt (ChatRequest.mk None EmptyString None None)) 400 outcome].
Proof.
  apply (X2_short_message_goes_to_model (sample_env true (inr tough_reply) None)).
  - apply ascii_lower_python.
  - simpl. lia.
Defined.

(** X3: the keyword "die by suicide" is redundant: every text that
    contains it contains "suicide", so the scan with the six other
    keywords gives the same verdict on every message, whatever the
    lower-casing. *)
Theorem X3_die_by_suicide_redundant (lower : string → string) (text : string) :
  contains_risk lower text =
  existsb (λ k, Str.contains k (lower text)) SHORT_KEYWORDS.
Proof.
  unfold contains_risk, RISK_KEYWORDS, SHORT_KEYWORDS. cbn [existsb].
  destruct (Str.contains "die by suicide" (lower text)) eqn:Hd;
    [|by rewrite !orb_false_r].
  assert (Str.contains "suicide" (lower text) = true) as ->; [|done].
  apply contains_spec. apply contains_spec in Hd.
  apply (occurs_in_trans _ "die by suicide"); [|done].
  by exists "die by ", EmptyString.
Qed.

(* ===================================================================== *)
(** ** More on the prompt *)
(* ===================================================================== *)

(** X4: whatever the history, the prompt starts with the system
    instruction and ends with a blank line and "user: <message>"; it has
    one part per history entry besides these two; and an absent history
    and an empty one give the same prompt. *)
Theorem X4_prompt_frame (req : ChatRequest.t) :
  (∃ mid, build_prompt req =
          SYSTEM_PROMPT +:+ mid +:+ blank_line +:+ "user: " +:+ ChatRequest.message req) ∧
  length (prompt_parts req) = (2 + length (default [] (ChatRequest.history req)))%nat ∧
  build_prompt (with_history req None) = build_prompt (with_history req (Some [])).
Proof.
  split; [|split].
  - rewrite build_prompt_spec. unfold spec_prompt.
    by exists (spec_entries (default [] (ChatRequest.history req))).
  - rewrite prompt_parts_eq. cbn [length]. rewrite length_app, length_map. simpl. lia.
  - reflexivity.
Qed.

Lemma merged_entry_role (m1 m2 : Dict) :
  entry_role (merged_entry m1 m2) = entry_role m1.
Proof. unfold entry_role, merged_entry. by rewrite lookup_insert_ne. Qed.

Lemma merged_entry_text (m1 m2 : Dict) :
  entry_text (merged_entry m1 m2) =
  entry_text m1 +:+ blank_line +:+ entry_role m2 +:+ ": " +:+ entry_text m2.
Proof. unfold entry_text at 1, merged_entry. by rewrite lookup_insert_eq. Qed.

(** X5: the prompt does not delimit the history entries.  Two adjacent
    entries and the single entry whose text is the text of the first, a
    blank line and the rendering of the second give the same prompt. *)
Theorem X5_prompt_merges_entries (req : ChatRequest.t)
    (before after : list Dict) (m1 m2 : Dict) :
  build_prompt (with_history req (Some (before ++ m1 :: m2 :: after))) =
  build_prompt (with_history req (Some (before ++ merged_entry m1 m2 :: after))).
Proof.
  rewrite !build_prompt_spec. unfold spec_prompt, with_history.
  cbn [ChatRequest.history ChatRequest.message from_option id].
  f_equal. rewrite !spec_entries_app, !str_app_assoc. f_equal. cbn [spec_entries].
  rewrite merged_entry_role, merged_entry_text, !str_app_assoc. reflexivity.
Qed.

(** X6: the session id and the ciphertext do not reach the model.  Two
    unflagged requests with the same message and the same history send
    the same prompt, whatever their other fields, the environment and the
    state. *)
Theorem X6_prompt_ignores_id_and_ciphertext
    (env1 env2 : Env) (req1 req2 : ChatRequest.t) (st1 st2 : State) :
  ChatRequest.message req1 = ChatRequest.message req2 →
  ChatRequest.history req1 = ChatRequest.history req2 →
  contains_risk (str_lower env1) (ChatRequest.message req1) = false →
  contains_risk (str_lower env2) (ChatRequest.message req2) = false →
  ∃ prompt outcome1 outcome2,
    List.filter is_model_call (events st1 (chat env1 req1 st1)) =
      [GenerateContent "gemini-2.5-flash" prompt 400 outcome1] ∧
    List.filter is_model_call (events st2 (chat env2 req2 st2)) =
      [GenerateContent "gemini-2.5-flash" prompt 400 outcome2].
Proof.
  intros Hm Hh H1 H2.
  destruct (one_model_call env1 req1 st1 H1) as [o1 Ho1].
  destruct (one_model_call env2 req2 st2 H2) as [o2 Ho2].
  exists (build_prompt req1), o1, o2. split; [done|].
  rewrite Ho2. do 2 f_equal. unfold build_prompt, prompt_parts. by rewrite Hm, Hh.
Qed.

Lemma X6_witness :
  ∃ prompt outcome1 outcome2,
    List.filter is_model_call
      (events st0 (chat (sample_env true (inr tough_reply) None) rough_day_saved st0)) =
      [GenerateContent "gemini-2.5-flash" prompt 400 outcome1] ∧
    List.filter is_model_call
      (events st0 (chat kelvin_env
                     (ChatRequest.mk None "I had a rough day"
                        (ChatRequest.history rough_day_saved) None) st0)) =
      [GenerateContent "gemini-2.5-flash" prompt 400 outcome2].
Proof.
  apply X6_prompt_ignores_id_and_ciphertext; [reflexivity | reflexivity | |].
  all: vm_compute; reflexivity.
Defined.

(* ===================================================================== *)
(** ** Effects of one request *)
(* ===================================================================== *)

(** Finds an event in an explicit list. *)
Ltac in_events :=
  first [ apply list_elem_of_here | apply list_elem_of_further; in_events ].

(** X7: the calls of the network clients made by one request, in order.
    A flagged request makes no call or one write.  An unflagged request
    makes one model call, followed by at most one write, and a write only
    after the model call returned a response. *)
Theorem X7_client_calls (env : Env) (req : ChatRequest.t) (st : State) :
  if contains_risk (str_lower env) (ChatRequest.message req)
  then client_calls (events st (chat env req st)) = [] ∨
       ∃ d failure,
         client_calls (events st (chat env req st)) =
         [FirestoreSet "saved_sessions" (resolved_session_id env req st) d failure]
  else ∃ outcome,
         client_calls (events st (chat env req st)) =
         [GenerateContent "gemini-2.5-flash" (build_prompt req) 400 outcome] ∨
         ∃ resp d failure,
           outcome = inr resp ∧
           client_calls (events st (chat env req st)) =
           [GenerateContent "gemini-2.5-flash" (build_prompt req) 400 outcome;
            FirestoreSet "saved_sessions" (resolved_session_id env req st) d failure].
Proof.
  unfold resolved_session_id. run_both req.
  all: first [ left; reflexivity
             | right; do 2 eexists; reflexivity
             | eexists; left; reflexivity
             | eexists; right; do 3 eexists; split; reflexivity ].
Qed.

(** What one request does to the store. *)
Lemma chat_store (env : Env) (req : ChatRequest.t) (st : State) :
  db (final (chat env req st)) = db st ∨
  ∃ r d,
    result (chat env req st) = Ok r ∧ ChatResponse.saved r = true ∧
    ChatResponse.session_id r = resolved_session_id env req st ∧
    db (final (chat env req st)) =
      <[("saved_sessions", ChatResponse.session_id r) := d]> (db st).
Proof.
  unfold resolved_session_id. run_both req.
  all: first [ left; reflexivity
             | right; do 2 eexists; repeat split; reflexivity ].
Qed.

(** X8: the saved flag tells what happened to the store.  With saved true
    a write went through and the store is the old one with the document of
    the session replaced by the record written; with saved false the store
    is unchanged and no write went through. *)
Theorem X8_saved_flag_and_store (env : Env) (req : ChatRequest.t) (st : State)
    (r : ChatResponse.t) :
  result (chat env req st) = Ok r →
  if ChatResponse.saved r
  then ∃ d,
         FirestoreSet "saved_sessions" (ChatResponse.session_id r) d None
           ∈ events st (chat env req st) ∧
         db (final (chat env req st)) =
           <[("saved_sessions", ChatResponse.session_id r) := d]> (db st)
  else db (final (chat env req st)) = db st ∧
       ∀ c k d, FirestoreSet c k d None ∉ events st (chat env req st).
Proof.
  run_both req; intros H; simplify_eq; cbn [ChatResponse.saved ChatResponse.session_id].
  all: first [ eexists; split; [in_events | reflexivity]
             | split; [reflexivity | intros c k d Hin; which_event Hin] ].
Qed.

Lemma X8_witness :
  ∃ d,
    FirestoreSet "saved_sessions" "s-1" d None
      ∈ events st0 (chat (sample_env true (inr tough_reply) None) rough_day_saved st0) ∧
    db (final (chat (sample_env true (inr tough_reply) None) rough_day_saved st0)) =
      <[("saved_sessions", "s-1") := d]> (db st0).
Proof.
  apply (X8_saved_flag_and_store (sample_env true (inr tough_reply) None) rough_day_saved st0
           (ChatResponse.mk "s-1" "That sounds tough, want to talk about it?"
              "2025-01-01T12:00:00Z" true)).
  vm_compute. reflexivity.
Defined.

(** X9: a request leaves every document of the store alone except the one
    of its own session in the collection saved_sessions, and it never
    removes a document. *)
Theorem X9_store_frame (env : Env) (req : ChatRequest.t) (st : State) :
  (∀ key, key ≠ ("saved_sessions", resolved_session_id env req st) →
          db (final (chat env req st)) !! key = db st !! key) ∧
  dom (db st) ⊆ dom (db (final (chat env req st))).
Proof.
  destruct (chat_store env req st) as [-> | (r & d & _ & _ & Hsid & ->)].
  - split; [done | set_solver].
  - rewrite Hsid. split.
    + intros key Hkey. by rewrite lookup_insert_ne.
    + rewrite dom_insert_L. set_solver.
Qed.

Lemma X9_witness :
  db (final (chat (sample_env true (inr tough_reply) None) rough_day_saved st0))
    !! ("saved_sessions", "s-2") = db st0 !! ("saved_sessions", "s-2").
Proof.
  apply (X9_store_frame (sample_env true (inr tough_reply) None) rough_day_saved st0).
  vm_compute. intros H. discriminate H.
Defined.

(** X10: the last write wins.  When two requests of the same session are
    served one after the other and the second is saved, the store after
    both is the store before both with the document of the session set to
    the record of the second: nothing of the first record is left. *)
Theorem X10_last_write_wins (env : Env) (req1 req2 : ChatRequest.t) (st : State)
    (r1 r2 : ChatResponse.t) :
  result (chat env req1 st) = Ok r1 →
  result (chat env req2 (final (chat env req1 st))) = Ok r2 →
  ChatResponse.session_id r1 = ChatResponse.session_id r2 →
  ChatResponse.saved r2 = true →
  ∃ d2,
    FirestoreSet "saved_sessions" (ChatResponse.session_id r2) d2 None
      ∈ events (final (chat env req1 st)) (chat env req2 (final (chat env req1 st))) ∧
    db (final (chat env req2 (final (chat env req1 st)))) =
      <[("saved_sessions", ChatResponse.session_id r2) := d2]> (db st).
Proof.
  intros H1 H2 Hsid Hsaved.
  assert (∃ d2,
            FirestoreSet "saved_sessions" (ChatResponse.session_id r2) d2 None
              ∈ events (final (chat env req1 st)) (chat env req2 (final (chat env req1 st))) ∧
            db (final (chat env req2 (final (chat env req1 st)))) =
              <[("saved_sessions", ChatResponse.session_id r2) := d2]>
                (db (final (chat env req1 st)))) as (d2 & Hin & Hdb).
  { revert H2 Hsaved. generalize (final (chat env req1 st)). intros st1.
    run_both req2; intros H2 Hs; simplify_eq; try discriminate Hs.
    all: eexists; split; [in_events | reflexivity]. }
  exists d2. split; [done|]. rewrite Hdb.
  destruct (chat_store env req1 st) as [-> | (r1' & d1 & Hr1 & _ & _ & ->)]; [done|].
  rewrite Hr1 in H1. injection H1 as ->. rewrite Hsid. apply insert_insert_eq.
Qed.

Lemma X10_witness :
  ∃ d2,
    FirestoreSet "saved_sessions" "s-1" d2 None
      ∈ events (final (chat (sample_env true (inr tough_reply) None) rough_day_saved st0))
          (chat (sample_env true (inr tough_reply) None)
             (ChatRequest.mk (Some "s-1") "I want to die" None (Some "other"))
             (final (chat (sample_env true (inr tough_reply) None) rough_day_saved st0))) ∧
    db (final (chat (sample_env true (inr tough_reply) None)
                 (ChatRequest.mk (Some "s-1") "I want to die" None (Some "other"))
                 (final (chat (sample_env true (inr tough_reply) None) rough_day_saved st0)))) =
      <[("saved_sessions", "s-1") := d2]> (db st0).
Proof.
  apply (X10_last_write_wins (sample_env true (inr tough_reply) None) rough_day_saved
           (ChatRequest.mk (Some "s-1") "I want to die" None (Some "other")) st0
           (ChatResponse.mk "s-1" "That sounds tough, want to talk about it?"
              "2025-01-01T12:00:00Z" true)
           (ChatResponse.mk "s-1" CRISIS_REPLY "2025-01-01T12:00:00Z" true)).
  all: vm_compute; reflexivity.
Defined.

(** X11: when the reply text taken from the response is None (no usable
    direct text, and a first content segment whose text is None), the
    request fails with an AttributeError raised by the final strip, not
    with "AI generation failed".  Nothing is written; with ciphertext and
    persistence the slicing of None is caught and printed as a failed
    save. *)
Theorem X11_none_reply_text (env : Env) (req : ChatRequest.t) (st : State)
    (model prompt : string) (n : Z) (resp : GenAI.Response)
    (c : GenAI.Candidate) (cs : list GenAI.Candidate)
    (seg : GenAI.Segment) (segs : list GenAI.Segment) :
  GenerateContent model prompt n (inr resp) ∈ events st (chat env req st) →
  no_direct_text resp →
  GenAI.candidates resp = Attr (c :: cs) → GenAI.content c = seg :: segs →
  GenAI.seg_text seg = None →
  result (chat env req st) =
    Raised (AttributeError "'NoneType' object has no attribute 'strip'") ∧
  Forall (λ ev, is_write ev = false) (events st (chat env req st)) ∧
  db (final (chat env req st)) = db st ∧
  (opt_truthy (ChatRequest.save_opt_in_ciphertext req) && save_enabled env = true →
   Printed "Firestore save failed:" (TypeError "'NoneType' object is not subscriptable")
     ∈ events st (chat env req st)).
Proof.
  intros Hin Hd Hc Hs Ht.
  pose proof (extract_first_segment _ _ _ _ _ Hd Hc Hs) as Hx. rewrite Ht in Hx.
  revert Hin. run_both req; intros Hin; which_event Hin; same_extraction.
  all: split; [reflexivity|]; split; [repeat constructor|]; split; [reflexivity|].
  all: intros Hon; first [discriminate Hon | in_events].
Qed.

Lemma X11_witness :
  result (chat (sample_env true (inr none_segment_response) None) rough_day_saved st0) =
    Raised (AttributeError "'NoneType' object has no attribute 'strip'") ∧
  Forall (λ ev, is_write ev = false)
    (events st0 (chat (sample_env true (inr none_segment_response) None) rough_day_saved st0)) ∧
  db (final (chat (sample_env true (inr none_segment_response) None) rough_day_saved st0))
    = db st0 ∧
  (opt_truthy (ChatRequest.save_opt_in_ciphertext rough_day_saved) &&
   save_enabled (sample_env true (inr none_segment_response) None) = true →
   Printed "Firestore save failed:" (TypeError "'NoneType' object is not subscriptable")
     ∈ events st0 (chat (sample_env true (inr none_segment_response) None) rough_day_saved st0)).
Proof.
  apply (X11_none_reply_text (sample_env true (inr none_segment_response) None)
           rough_day_saved st0 "gemini-2.5-flash" (build_prompt rough_day_saved) 400
           none_segment_response
           {| GenAI.content := [ {| GenAI.seg_text := None |} ] |} []
           {| GenAI.seg_text := None |} []).
  - vm_compute. apply list_elem_of_here.
  - left. reflexivity.
  - reflexivity.
  - reflexivity.
  - reflexivity.
Defined.

(** X12: a failed generation has exactly two effects, the model call and
    one printed line; the exception printed is the one that the model call
    or the extraction of the reply text raised. *)
Theorem X12_generation_failure_logged (env : Env) (req : ChatRequest.t) (st : State) :
  result (chat env req st) = Raised AI_GENERATION_FAILED →
  ∃ outcome e,
    events st (chat env req st) =
      [GenerateContent "gemini-2.5-flash" (build_prompt req) 400 outcome;
       Printed "GenAI call failed:" e] ∧
    (outcome = inl e ∨
     ∃ resp, outcome = inr resp ∧ extract_reply_text resp = Raised e).
Proof.
  run_both req; intros H; try discriminate H.
  all: do 2 eexists; split; [reflexivity|]; eauto.
Qed.

Lemma X12_witness :
  ∃ outcome e,
    events st0 (chat (sample_env true (inl (ClientError "quota")) None) rough_day_saved st0) =
      [GenerateContent "gemini-2.5-flash" (build_prompt rough_day_saved) 400 outcome;
       Printed "GenAI call failed:" e] ∧
    (outcome = inl e ∨
     ∃ resp, outcome = inr resp ∧ extract_reply_text resp = Raised e).
Proof.
  apply X12_generation_failure_logged. vm_compute. reflexivity.
Defined.

Lemma dom_base_record (a b c d : PyVal) :
  dom (<["session_id" := a]> (<["ciphertext" := b]> (<["created_at" := c]>
        (<["opt_in" := d]> (∅ : Dict))))) = BASE_FIELDS.
Proof. rewrite !dom_insert_L, dom_empty_L. unfold BASE_FIELDS. set_solver. Qed.

Lemma dom_snippet_record (a b c d e : PyVal) :
  dom (<["session_id" := a]> (<["ciphertext" := b]> (<["created_at" := c]>
        (<["opt_in" := d]> (<["snippet" := e]> (∅ : Dict)))))) = SNIPPET_FIELDS.
Proof.
  rewrite !dom_insert_L, dom_empty_L. unfold SNIPPET_FIELDS, BASE_FIELDS. set_solver.
Qed.

(** X13: a record handed to the store has the four fields session_id,
    ciphertext, created_at and opt_in, in the model branch the field
    snippet as well, and no other field: neither the message nor the
    history nor the prompt is stored. *)
Theorem X13_record_fields (env : Env) (req : ChatRequest.t) (st : State)
    (c k : string) (d : Dict) (failure : option Exn) :
  FirestoreSet c k d failure ∈ events st (chat env req st) →
  dom d = if contains_risk (str_lower env) (ChatRequest.message req) then BASE_FIELDS else SNIPPET_FIELDS.
Proof.
  run_both req; intros Hin; which_event Hin.
  all: first [apply dom_base_record | apply dom_snippet_record].
Qed.

Lemma X13_witness :
  dom rough_day_record =
  if contains_risk AsciiText.lower (ChatRequest.message rough_day_saved)
  then BASE_FIELDS else SNIPPET_FIELDS.
Proof.
  apply (X13_record_fields (sample_env true (inr tough_reply) None)
           rough_day_saved st0 "saved_sessions" "s-1" rough_day_record None).
  vm_compute. apply list_elem_of_further, list_elem_of_here.
Defined.

(* ===================================================================== *)
(* ===================================================================== *)
(** ** The trimmed reply *)
(* ===================================================================== *)

(** The reply of a response of the model branch is a trimmed text. *)
Lemma chat_reply_is_stripped (env : Env) (req : ChatRequest.t) (st : State)
    (r : ChatResponse.t) :
  contains_risk (str_lower env) (ChatRequest.message req) = false →
  result (chat env req st) = Ok r →
  ∃ text, ChatResponse.reply r = Str.strip text.
Proof.
  intros Hno. run_chat. rewrite Hno. branch; tidy_events; intros H; simplify_eq.
  all: eexists; reflexivity.
Qed.

(** X14: the reply of the model branch never starts and never ends with a
    whitespace character, and trimming it again changes nothing.  This
    holds for the one-byte whitespace characters and for every other one
    that str.strip knows (no-break space, line separator, ideographic
    space and so on). *)
Theorem X14_reply_has_no_outer_whitespace (env : Env) (req : ChatRequest.t)
    (st : State) (r : ChatResponse.t) :
  contains_risk (str_lower env) (ChatRequest.message req) = false →
  result (chat env req st) = Ok r →
  (∀ c rest, ChatResponse.reply r = String c rest → AsciiText.is_space c = false) ∧
  (∀ front c, ChatResponse.reply r = front +:+ String c EmptyString →
              AsciiText.is_space c = false) ∧
  Str.strip (ChatResponse.reply r) = ChatResponse.reply r ∧
  prefix_by Str.is_space (ChatResponse.reply r) = None ∧
  Str.lstrip (ChatResponse.reply r) = ChatResponse.reply r ∧
  Str.rstrip (ChatResponse.reply r) = ChatResponse.reply r.
Proof.
  intros Hno Hr. destruct (chat_reply_is_stripped env req st r Hno Hr) as [text ->].
  split; [|split; [|split; [|split; [|split]]]].
  - intros c rest H. rewrite <- is_space_byte. by apply (strip_head text c rest).
  - intros front c H. rewrite <- is_space_byte. by apply (strip_last text front c).
  - apply strip_idem.
  - apply strip_no_prefix.
  - apply lstrip_strip.
  - apply rstrip_strip.
Qed.

Lemma X14_witness :
  (∀ c rest, "caf" +:+ Str.utf8 0xE9 +:+ " 5" +:+ Str.utf8 0x20AC = String c rest →
             AsciiText.is_space c = false) ∧
  (∀ front c, "caf" +:+ Str.utf8 0xE9 +:+ " 5" +:+ Str.utf8 0x20AC
              = front +:+ String c EmptyString →
              AsciiText.is_space c = false) ∧
  Str.strip ("caf" +:+ Str.utf8 0xE9 +:+ " 5" +:+ Str.utf8 0x20AC)
    = "caf" +:+ Str.utf8 0xE9 +:+ " 5" +:+ Str.utf8 0x20AC ∧
  prefix_by Str.is_space ("caf" +:+ Str.utf8 0xE9 +:+ " 5" +:+ Str.utf8 0x20AC) = None ∧
  Str.lstrip ("caf" +:+ Str.utf8 0xE9 +:+ " 5" +:+ Str.utf8 0x20AC)
    = "caf" +:+ Str.utf8 0xE9 +:+ " 5" +:+ Str.utf8 0x20AC ∧
  Str.rstrip ("caf" +:+ Str.utf8 0xE9 +:+ " 5" +:+ Str.utf8 0x20AC)
    = "caf" +:+ Str.utf8 0xE9 +:+ " 5" +:+ Str.utf8 0x20AC.
Proof.
  apply (X14_reply_has_no_outer_whitespace (sample_env true (inr unicode_reply) None)
           rough_day st0
           (ChatResponse.mk "-0000" ("caf" +:+ Str.utf8 0xE9 +:+ " 5" +:+ Str.utf8 0x20AC)
              "2025-01-01T12:00:00Z" false)).
  all: vm_compute; reflexivity.
Defined.

(* ===================================================================== *)
(** ** Start-up *)
(* ===================================================================== *)

(** X15: the import fails, with a RuntimeError, exactly when
    GENAI_API_KEY is unset or empty.  When it succeeds the key handed to
    the Gemini client is the value of that variable; persistence is
    enabled exactly when FIRESTORE_PROJECT is set and not empty; and the
    Firestore client exists exactly when persistence is enabled, for the
    project named by that variable. *)
Theorem X15_import_main (environ : gmap string string) :
  ((∃ msg, Startup.import_main environ = inl (Startup.RuntimeError msg)) ↔
   ¬ ∃ key, supplied (environ !! "GENAI_API_KEY") key) ∧
  (∀ g, Startup.import_main environ = inr g →
     supplied (environ !! "GENAI_API_KEY") (Startup.api_key g) ∧
     (Startup.save_enabled g = true ↔
      ∃ project, supplied (environ !! "FIRESTORE_PROJECT") project) ∧
     (∀ project, Startup.db g = Some project ↔
                 Startup.save_enabled g = true ∧
                 environ !! "FIRESTORE_PROJECT" = Some project)).
Proof.
  unfold Startup.import_main, Startup.getenv.
  rewrite <- !opt_truthy_supplied. split.
  - destruct (opt_truthy (environ !! "GENAI_API_KEY")); simpl; split.
    + intros [msg H]. discriminate H.
    + intros H. by destruct H.
    + intros _ H. discriminate H.
    + eauto.
  - intros g. destruct (opt_truthy (environ !! "GENAI_API_KEY")) eqn:Hk; simpl;
      intros H; [|discriminate H]. injection H as <-. simpl.
    split; [|split].
    + destruct (environ !! "GENAI_API_KEY") as [[|c key]|]; try discriminate Hk.
      split; [reflexivity | discriminate].
    + by rewrite <- opt_truthy_supplied.
    + intros project.
      destruct (opt_truthy (environ !! "FIRESTORE_PROJECT")); split.
      * intros ->. done.
      * by intros [_ ->].
      * intros H. discriminate H.
      * intros [H _]. discriminate H.
Qed.

Lemma X15_witness :
  supplied (environ_with_store !! "GENAI_API_KEY") "k-123" ∧
  (true = true ↔ ∃ project, supplied (environ_with_store !! "FIRESTORE_PROJECT") project) ∧
  (∀ project, Some "moodm8" = Some project ↔
              true = true ∧ environ_with_store !! "FIRESTORE_PROJECT" = Some project).
Proof.
  apply (proj2 (X15_import_main environ_with_store)
           {| Startup.GENAI_KEY := "k-123";
              Startup.api_key := "k-123";
              Startup.FIRESTORE_PROJECT := Some "moodm8";
              Startup.save_enabled := true;
              Startup.db := Some "moodm8" |}).
  vm_compute. reflexivity.
Defined.

(** Without persistence a request does not write. *)
Lemma chat_without_store (env : Env) (req : ChatRequest.t) (st : State) :
  save_enabled env = false →
  Forall (λ ev, is_write ev = false) (events st (chat env req st)) ∧
  db (final (chat env req st)) = db st ∧
  ∀ r, result (chat env req st) = Ok r → ChatResponse.saved r = false.
Proof.
  intros Hoff. run_chat. rewrite Hoff, andb_false_r.
  destruct (contains_risk (str_lower env) (ChatRequest.message req)); branch; tidy_events.
  all: split; [repeat constructor | split; [done | intros ? ?; by simplify_eq/=]].
Qed.

(** X16: a process started without FIRESTORE_PROJECT (unset or empty)
    never writes: whatever the request, also one with ciphertext, no write
    is attempted, the store stays as it is and a response has saved =
    false. *)
Theorem X16_no_project_no_write (environ : gmap string string) (g : Startup.Globals)
    (env : Env) (req : ChatRequest.t) (st : State) :
  Startup.import_main environ = inr g →
  started_with g env →
  (¬ ∃ project, supplied (environ !! "FIRESTORE_PROJECT") project) →
  Forall (λ ev, is_write ev = false) (events st (chat env req st)) ∧
  db (final (chat env req st)) = db st ∧
  ∀ r, result (chat env req st) = Ok r → ChatResponse.saved r = false.
Proof.
  intros Hg Hstart Hno. apply chat_without_store. rewrite Hstart.
  rewrite <- opt_truthy_supplied in Hno. revert Hg.
  unfold Startup.import_main, Startup.getenv.
  destruct (opt_truthy (environ !! "GENAI_API_KEY")); simpl; intros Hg;
    [|discriminate Hg].
  injection Hg as <-. simpl. by destruct (opt_truthy (environ !! "FIRESTORE_PROJECT")).
Qed.

Lemma X16_witness :
  Forall (λ ev, is_write ev = false)
    (events st0 (chat (sample_env false (inr tough_reply) None) end_my_life_saved st0)) ∧
  db (final (chat (sample_env false (inr tough_reply) None) end_my_life_saved st0)) = db st0 ∧
  ∀ r, result (chat (sample_env false (inr tough_reply) None) end_my_life_saved st0) = Ok r →
       ChatResponse.saved r = false.
Proof.
  apply (X16_no_project_no_write environ_without_store
           {| Startup.GENAI_KEY := "k-123";
              Startup.api_key := "k-123";
              Startup.FIRESTORE_PROJECT := None;
              Startup.save_enabled := false;
              Startup.db := None |}).
  - vm_compute. reflexivity.
  - reflexivity.
  - intros [project [H _]]. vm_compute in H. discriminate H.
Defined.

(* ===================================================================== *)
(* ===================================================================== *)
(** ** A reply of whitespace only *)
(* ===================================================================== *)

(** X17: a reply text of whitespace only is not an error.  When the text
    taken from the response is a string the request succeeds, and the
    returned reply is empty exactly when every character of that text is
    whitespace, the whitespace of str.strip. *)
Theorem X17_whitespace_reply (env : Env) (req : ChatRequest.t) (st : State)
    (model prompt : string) (n : Z) (resp : GenAI.Response) (text : string) :
  GenerateContent model prompt n (inr resp) ∈ events st (chat env req st) →
  extract_reply_text resp = Ok (Some text) →
  ∃ r, result (chat env req st) = Ok r ∧
       (ChatResponse.reply r = EmptyString ↔ all_space text = true).
Proof.
  intros Hin%chat_after_model_call Hx. rewrite Hx in Hin.
  destruct Hin as (r & Hr & Hreply). exists r. split; [done|].
  rewrite Hreply. apply strip_empty_iff.
Qed.

Lemma X17_witness :
  ∃ r, result (chat (sample_env true
                       (inr (text_response (Str.utf8 0xA0 +:+ " " +:+ Str.utf8 0x3000)))
                       None) rough_day st0)
       = Ok r ∧
       (ChatResponse.reply r = EmptyString ↔
        all_space (Str.utf8 0xA0 +:+ " " +:+ Str.utf8 0x3000) = true).
Proof.
  apply (X17_whitespace_reply
           (sample_env true (inr (text_response (Str.utf8 0xA0 +:+ " " +:+ Str.utf8 0x3000)))
              None)
           rough_day st0 "gemini-2.5-flash" (build_prompt rough_day) 400
           (text_response (Str.utf8 0xA0 +:+ " " +:+ Str.utf8 0x3000))
           (Str.utf8 0xA0 +:+ " " +:+ Str.utf8 0x3000)).
  - vm_compute. apply list_elem_of_here.
  - reflexivity.
Defined.
